(** * litestar-users: the user service (src/litestar_users/service.py)

    A shallow embedding of [BaseUserService] and of the collaborators it
    drives: the password manager, the JWT codecs, and the user, role and
    OAuth-account repositories.  Asynchronous methods become computations
    in a state-and-exception monad over a [World] holding the tables, the
    clock, the entropy source, the notifier outbox and the trace of the
    tokens signed.  A raised exception keeps the effects performed before
    it, as a committed database write does. *)

From Stdlib Require Import String Ascii List ZArith NArith Bool Lia.
From Stdlib Require Import DecimalString HexadecimalString.
Import ListNotations.
Local Open Scope string_scope.
Local Open Scope Z_scope.

(** ** Python values used by the service *)

(** [UUID | int]: the two primary-key types the service accepts. *)
Inductive Ident : Type :=
| IdUUID (n : N)
| IdInt (z : Z).

Definition Ident_eqb (a b : Ident) : bool :=
  match a, b with
  | IdUUID x, IdUUID y => N.eqb x y
  | IdInt x, IdInt y => Z.eqb x y
  | _, _ => false
  end.

Fixpoint zeros (n : nat) : string :=
  match n with
  | O => EmptyString
  | S k => String "0" (zeros k)
  end.

Definition pad_left (n : nat) (s : string) : string :=
  zeros (n - String.length s) ++ s.

(** [str(uuid)]: 32 lower-case hex digits grouped 8-4-4-4-12. *)
Definition str_uuid (n : N) : string :=
  let h := pad_left 32 (HexadecimalString.NilEmpty.string_of_uint (N.to_hex_uint n)) in
  substring 0 8 h ++ "-" ++ substring 8 4 h ++ "-" ++ substring 12 4 h ++ "-"
    ++ substring 16 4 h ++ "-" ++ substring 20 12 h.

(** [str(user_id)]. *)
Definition str (i : Ident) : string :=
  match i with
  | IdUUID n => str_uuid n
  | IdInt z => DecimalString.NilZero.string_of_int (Z.to_int z)
  end.

(** ** Exceptions and the service monad *)

Inductive exn : Type :=
| NotFoundError
| MultipleResultsFound
| IntegrityError (detail : string)
| InvalidTokenException
| NotAuthorizedException
| ImproperlyConfiguredException (detail : string)
| HTTPException (status_code : Z) (detail : string)
| KeyError (key : string)
| ValueError
| AttributeError
| jwt_DecodeError
| jwt_ExpiredSignatureError
| jwt_InvalidAudienceError
| jwt_MissingRequiredClaimError (claim : string)
| HookError (detail : string).

Definition HTTP_400_BAD_REQUEST : Z := 400.

Definition is_NotFoundError (e : exn) : bool :=
  match e with NotFoundError => true | _ => false end.
Definition is_ValueError (e : exn) : bool :=
  match e with ValueError => true | _ => false end.
Definition is_NotAuthorizedException (e : exn) : bool :=
  match e with NotAuthorizedException => true | _ => false end.
Definition is_jwt_DecodeError (e : exn) : bool :=
  match e with jwt_DecodeError => true | _ => false end.

(** A 400-class outcome: an [HTTPException] carrying a 4xx status. *)
Definition is_400_class (e : exn) : bool :=
  match e with
  | HTTPException c _ => (400 <=? c) && (c <? 500)
  | _ => false
  end.

Inductive Res (A : Type) : Type :=
| Return (a : A)
| Raise (e : exn).
Arguments Return {A} a.
Arguments Raise {A} e.

(** The Python built-ins the service applies to text it does not control:
    [str.lower()] (which stands for the database's [lower] as well),
    [uuid.UUID(s)] and [int(s)], the last two raising [ValueError] on text
    they do not accept.  The development fixes none of them: every
    definition and theorem below holds for whatever they compute. *)
Class Builtins : Type := {
  lower : string -> string;
  UUID : string -> Res N;
  int : string -> Res Z
}.

(** ** Data model *)

Record Role : Type := mkRole {
  role_id : Ident;
  role_name : string
}.

(** The keys of [oauth_account_dict], which are the columns of an
    OAuth-account row. *)
Record OAuthAccount : Type := mkOAuthAccount {
  oauth_name : string;
  access_token : string;
  account_id : string;
  account_email : string;
  expires_at : option Z;
  refresh_token : option string
}.

Record User : Type := mkUser {
  id : Ident;
  email : string;
  password_hash : string;
  is_active : bool;
  is_verified : bool;
  roles : list Role;
  oauth_accounts : list OAuthAccount;
  columns : list (string * string)
}.

(** Login payload: [getattr(data, user_auth_identifier)] and [data.password]. *)
Record AuthenticationSchema : Type := mkAuth {
  auth_identifier : string;
  auth_password : string
}.

(** Registration payload, the [data] dict of [register]. *)
Record UserCreate : Type := mkUserCreate {
  create_email : string;
  create_password : string;
  create_columns : list (string * string)
}.

(** A JWT, symbolically: the claims and the key that signed them, or a
    string that is no token at all. *)
Record Claims : Type := mkClaims {
  claim_exp : option Z;
  claim_fields : list (string * string)
}.

Inductive jwt : Type :=
| Signed (key : string) (payload : Claims)
| Malformed (raw : string).

(** [litestar.security.jwt.Token], the fields the service reads. *)
Record Token : Type := mkToken {
  exp : Z;
  sub : string;
  aud : option string
}.

Inductive Message : Type :=
| VerificationToken (to : Ident) (token : jwt)
| PasswordResetToken (to : Ident) (token : jwt).

(** What the service acts on: the user and role tables, the primary-key
    generator of the user table, the clock behind [datetime.now()], the
    entropy behind [uuid4()] and the salts, the tokens handed to the
    notifier, and the tokens [generate_token] has signed, in order: the
    work whose presence on every path the password-reset flow relies on. *)
Record World : Type := mkWorld {
  users : list User;
  role_table : list Role;
  pk_source : nat -> Ident;
  next_pk : nat;
  now : Z;
  entropy : nat -> N;
  draws : nat;
  outbox : list Message;
  signed_tokens : list jwt
}.

Definition M (A : Type) : Type := World -> Res A * World.

Definition ret {A} (a : A) : M A := fun w => (Return a, w).
Definition raise {A} (e : exn) : M A := fun w => (Raise e, w).
Definition bind {A B} (c : M A) (k : A -> M B) : M B :=
  fun w => match c w with
           | (Return a, w') => k a w'
           | (Raise e, w') => (Raise e, w')
           end.
Definition lift {A} (r : Res A) : M A := fun w => (r, w).

(** [try: c  except E: handler  else: els]. *)
Definition try_except_else {A B} (c : M A) (catches : exn -> bool)
    (handler : exn -> M B) (els : A -> M B) : M B :=
  fun w => match c w with
           | (Return a, w') => els a w'
           | (Raise e, w') => if catches e then handler e w' else (Raise e, w')
           end.

Definition try_except {A} (c : M A) (catches : exn -> bool) (handler : exn -> M A) : M A :=
  try_except_else c catches handler ret.

Declare Scope svc_scope.
Delimit Scope svc_scope with svc.
Notation "x <- c ;; k" := (bind c (fun x => k))
  (at level 100, c at next level, right associativity) : svc_scope.
Notation "c ;;; k" := (bind c (fun _ => k))
  (at level 100, right associativity) : svc_scope.
Local Open Scope svc_scope.

Definition get_world : M World := fun w => (Return w, w).

Definition set_users (us : list User) : M unit :=
  fun w => (Return tt, mkWorld us (role_table w) (pk_source w) (next_pk w) (now w)
                               (entropy w) (draws w) (outbox w) (signed_tokens w)).

Definition fresh_pk : M Ident :=
  fun w => (Return (pk_source w (next_pk w)),
            mkWorld (users w) (role_table w) (pk_source w) (S (next_pk w)) (now w)
                    (entropy w) (draws w) (outbox w) (signed_tokens w)).

Definition draw : M N :=
  fun w => (Return (entropy w (draws w)),
            mkWorld (users w) (role_table w) (pk_source w) (next_pk w) (now w)
                    (entropy w) (S (draws w)) (outbox w) (signed_tokens w)).

Definition datetime_now : M Z := fun w => (Return (now w), w).

Definition uuid4 : M Ident := n <- draw ;; ret (IdUUID n).

Definition dispatch (m : Message) : M unit :=
  fun w => (Return tt, mkWorld (users w) (role_table w) (pk_source w) (next_pk w) (now w)
                               (entropy w) (draws w) (outbox w ++ [m]) (signed_tokens w)).

(** The signing of a token, which hands the token back. *)
Definition record_signed (token : jwt) : M jwt :=
  fun w => (Return token,
            mkWorld (users w) (role_table w) (pk_source w) (next_pk w) (now w)
                    (entropy w) (draws w) (outbox w) (signed_tokens w ++ [token])).

(** ** Dictionaries with string keys *)

Definition dict : Type := list (string * string).

Fixpoint dict_get (d : dict) (k : string) : Res string :=
  match d with
  | [] => Raise (KeyError k)
  | (k', v) :: r => if String.eqb k' k then Return v else dict_get r k
  end.

Fixpoint dict_set (d : dict) (k v : string) : dict :=
  match d with
  | [] => [(k, v)]
  | (k', v') :: r => if String.eqb k' k then (k, v) :: r else (k', v') :: dict_set r k v
  end.

Definition dict_find (d : dict) (k : string) : option string :=
  match dict_get d k with Return v => Some v | Raise _ => None end.

(** ** Repositories *)

(** A query that must yield at most one row. *)
Definition one_or_none {A} (rows : list A) : Res (option A) :=
  match rows with
  | [] => Return None
  | [a] => Return (Some a)
  | _ => Raise MultipleResultsFound
  end.

Definition replace_user (u' : User) (us : list User) : list User :=
  map (fun u => if Ident_eqb (id u) (id u') then u' else u) us.

Definition set_password_hash (h : string) (u : User) : User :=
  mkUser (id u) (email u) h (is_active u) (is_verified u) (roles u)
         (oauth_accounts u) (columns u).
Definition set_is_verified (b : bool) (u : User) : User :=
  mkUser (id u) (email u) (password_hash u) (is_active u) b (roles u)
         (oauth_accounts u) (columns u).
Definition set_is_active (b : bool) (u : User) : User :=
  mkUser (id u) (email u) (password_hash u) b (is_verified u) (roles u)
         (oauth_accounts u) (columns u).
Definition set_id (i : Ident) (u : User) : User :=
  mkUser i (email u) (password_hash u) (is_active u) (is_verified u) (roles u)
         (oauth_accounts u) (columns u).
Definition set_roles (rs : list Role) (u : User) : User :=
  mkUser (id u) (email u) (password_hash u) (is_active u) (is_verified u) rs
         (oauth_accounts u) (columns u).
Definition set_oauth_accounts (l : list OAuthAccount) (u : User) : User :=
  mkUser (id u) (email u) (password_hash u) (is_active u) (is_verified u) (roles u)
         l (columns u).

(** Modelled from the spec: the user repository
    (litestar_users/adapter/sqlalchemy/repository.py), whose contract is
    get-by-id, get-one-or-none-by-predicate, exists-by-predicate, add and
    update, failing with NotFound when the row is absent. *)
Module UserRepository.

Definition exists_ (p : User -> bool) : M bool :=
  fun w => (Return (existsb p (users w)), w).

Definition get_one_or_none (p : User -> bool) : M (option User) :=
  fun w => (one_or_none (filter p (users w)), w).

Definition get_one (p : User -> bool) : M User :=
  r <- get_one_or_none p ;;
  match r with
  | Some u => ret u
  | None => raise NotFoundError
  end.

Definition get (i : Ident) : M User :=
  fun w => match find (fun u => Ident_eqb (id u) i) (users w) with
           | Some u => (Return u, w)
           | None => (Raise NotFoundError, w)
           end.

(** [add]: the row receives its primary key and joins the table. *)
Definition add (u : User) : M User :=
  pk <- fresh_pk ;;
  w <- get_world ;;
  let u' := set_id pk u in
  set_users (users w ++ [u']) ;;;
  ret u'.

(** [update(user_model(id=i, field=v))]: the row with primary key [i]
    takes the given field; NotFound when there is none. *)
Definition update (i : Ident) (f : User -> User) : M User :=
  u <- get i ;;
  w <- get_world ;;
  let u' := f u in
  set_users (replace_user u' (users w)) ;;;
  ret u'.

(** [_update(user, {field: v})]: set the attribute on the loaded
    instance and commit. *)
Definition _update (u : User) (f : User -> User) : M User :=
  w <- get_world ;;
  let u' := f u in
  set_users (replace_user u' (users w)) ;;;
  ret u'.

End UserRepository.

Definition Role_eqb (a b : Role) : bool := Ident_eqb (role_id a) (role_id b).

Fixpoint remove_first (r : Role) (l : list Role) : option (list Role) :=
  match l with
  | [] => None
  | x :: t => if Role_eqb x r then Some t
              else match remove_first r t with
                   | Some t' => Some (x :: t')
                   | None => None
                   end
  end.

(** Modelled from the spec: the role repository, which loads a role by id
    and persists or drops the user-role association. *)
Module RoleRepository.

Definition get (i : Ident) : M Role :=
  fun w => match find (fun r => Ident_eqb (role_id r) i) (role_table w) with
           | Some r => (Return r, w)
           | None => (Raise NotFoundError, w)
           end.

(** [user.roles.append(role)] and commit. *)
Definition assign_role (u : User) (r : Role) : M User :=
  UserRepository._update u (set_roles (roles u ++ [r])).

(** [user.roles.remove(role)] and commit. *)
Definition revoke_role (u : User) (r : Role) : M User :=
  match remove_first r (roles u) with
  | Some rs => UserRepository._update u (set_roles rs)
  | None => raise ValueError
  end.

End RoleRepository.

Definition same_account (name acc : string) (a : OAuthAccount) : bool :=
  String.eqb (oauth_name a) name && String.eqb (account_id a) acc.

Fixpoint replace_nth {A} (n : nat) (x : A) (l : list A) : list A :=
  match l, n with
  | [], _ => []
  | _ :: t, O => x :: t
  | h :: t, S k => h :: replace_nth k x t
  end.

(** Modelled from the spec: the OAuth-account repository.  An account is
    owned by exactly one user, so the table is the collection of every
    user's [oauth_accounts]. *)
Module OAuthRepository.

(** [get_one(oauth_name=.., account_id=..)], returning the owner. *)
Definition get_one (name acc : string) : M User :=
  fun w =>
    let owners := flat_map (fun u => map (fun _ => u)
                              (filter (same_account name acc) (oauth_accounts u)))
                           (users w) in
    match one_or_none owners with
    | Return (Some u) => (Return u, w)
    | Return None => (Raise NotFoundError, w)
    | Raise e => (Raise e, w)
    end.

(** [add_oauth_account(user, data)]: a new row owned by [user]. *)
Definition add_oauth_account (u : User) (data : OAuthAccount) : M User :=
  UserRepository._update u (set_oauth_accounts (oauth_accounts u ++ [data])).

(** [update_oauth_account(user, oauth_account, data)]: the row at
    position [k] of the user's accounts takes the values of [data]. *)
Definition update_oauth_account (u : User) (k : nat) (data : OAuthAccount) : M User :=
  UserRepository._update u (set_oauth_accounts (replace_nth k data (oauth_accounts u))).

End OAuthRepository.

(** ** Password manager and token codecs *)

(** Modelled from the spec: the credential manager
    (litestar_users/password.py).  [hash] is salted; [verify_and_update]
    returns whether the plaintext matched and, when the stored hash uses a
    deprecated scheme and matched, a fresh hash under the preferred
    scheme; with no stored hash it is the dummy verification; [generate]
    produces a random password. *)
Record PasswordManager : Type := mkPasswordManager {
  pm_hash : N -> string -> string;
  pm_verify_and_update : N -> string -> option string -> bool * option string;
  pm_generate : N -> string
}.

Definition hash (pm : PasswordManager) (password : string) : M string :=
  salt <- draw ;; ret (pm_hash pm salt password).

Definition verify_and_update (pm : PasswordManager) (password : string)
    (stored : option string) : M (bool * option string) :=
  salt <- draw ;; ret (pm_verify_and_update pm salt password stored).

Definition generate (pm : PasswordManager) : M string :=
  n <- draw ;; ret (pm_generate pm n).

(** [Token.encode(secret, algorithm="HS256")]. *)
Definition Token_encode (t : Token) (secret : string) : jwt :=
  Signed secret
    (mkClaims (Some (exp t))
       (("sub", sub t) :: match aud t with Some a => [("aud", a)] | None => [] end)).

(** [Token.decode(encoded_token, secret, algorithm="HS256")]: every
    failure (not a token, wrong key, no or past expiry, no subject)
    surfaces as [NotAuthorizedException]. *)
Definition Token_decode (encoded_token : jwt) (secret : string) : M Token :=
  t <- datetime_now ;;
  match encoded_token with
  | Malformed _ => raise NotAuthorizedException
  | Signed key payload =>
      if negb (String.eqb key secret) then raise NotAuthorizedException
      else match claim_exp payload with
           | None => raise NotAuthorizedException
           | Some e =>
               if e <=? t then raise NotAuthorizedException
               else match dict_find (claim_fields payload) "sub" with
                    | None => raise NotAuthorizedException
                    | Some "" => raise NotAuthorizedException
                    | Some s => ret (mkToken e s (dict_find (claim_fields payload) "aud"))
                    end
           end
  end.

(** Modelled from the spec: [generate_jwt] (litestar_users/jwt.py), the
    codec's issue operation: the claims of [data], signed with [secret],
    with an expiry [lifetime_seconds] ahead when a lifetime is given
    ([if lifetime_seconds:], so not for 0) and without expiry otherwise. *)
Definition generate_jwt (data : dict) (secret : string) (lifetime_seconds : Z) : M jwt :=
  if lifetime_seconds =? 0 then ret (Signed secret (mkClaims None data))
  else
    t <- datetime_now ;;
    ret (Signed secret (mkClaims (Some (t + lifetime_seconds)) data)).

(** Modelled from the spec: [decode_jwt] (litestar_users/jwt.py), the
    codec's decode operation: it fails on a bad signature, on a past
    expiry and on an audience outside [audience], each with the error
    class of the JWT library, and otherwise returns the claims.  Of the
    claims returned the model keeps the text ones, which are all the
    service reads; the numeric [exp] stays in [claim_exp]. *)
Definition decode_jwt (encoded_jwt : jwt) (secret : string) (audience : list string)
    : M dict :=
  t <- datetime_now ;;
  match encoded_jwt with
  | Malformed _ => raise jwt_DecodeError
  | Signed key payload =>
      if negb (String.eqb key secret) then raise jwt_DecodeError
      else if match claim_exp payload with Some e => e <=? t | None => false end
      then raise jwt_ExpiredSignatureError
      else match dict_find (claim_fields payload) "aud" with
           | None => raise (jwt_MissingRequiredClaimError "aud")
           | Some a =>
               if existsb (String.eqb a) audience then ret (claim_fields payload)
               else raise jwt_InvalidAudienceError
           end
  end.

Definition STATE_TOKEN_AUDIENCE : string := "litestar-users:oauth2-state".

Definition generate_state_token (data : dict) (secret : string) (lifetime_seconds : Z)
    : M jwt :=
  let data := dict_set data "aud" STATE_TOKEN_AUDIENCE in
  generate_jwt data secret lifetime_seconds.


(** ** The service *)

Section Service.

Context {py : Builtins}.

Inductive Repository : Type := SQLAlchemyRepository.

Record BaseUserService : Type := mkService {
  secret : string;
  user_auth_identifier : string;
  password_manager : PasswordManager;
  role_repository : option Repository;
  oauth2_repository : option Repository;
  require_verification_on_registration : bool;
  (** whether the user model declares a [roles] relationship *)
  user_model_has_roles : bool;
  (** the overridable hooks: each returns, or raises *)
  pre_login_hook : AuthenticationSchema -> Res bool;
  post_login_hook : User -> Res unit;
  pre_registration_hook : UserCreate -> Res unit;
  post_registration_hook : User -> Res unit;
  post_verification_hook : User -> Res unit
}.

(** [getattr(user, name)] for a string column. *)
Definition getattr (u : User) (name : string) : option string :=
  if String.eqb name "email" then Some (email u) else dict_find (columns u) name.

(** [func.lower(column) == value]: a row whose column is NULL never matches. *)
Definition lower_column_is (name value : string) (u : User) : bool :=
  match getattr u name with
  | Some v => String.eqb (lower v) value
  | None => false
  end.

(** The primary key of a model instance built from [data] and not yet
    added: the repository assigns the real one. *)
Definition unsaved : Ident := IdInt 0.

Definition add_user (s : BaseUserService) (user : User) (verify activate : bool) : M User :=
  match getattr user (user_auth_identifier s) with
  | None => raise AttributeError
  | Some ident =>
      user_exists <- UserRepository.exists_
                       (lower_column_is (user_auth_identifier s) (lower ident)) ;;
      if user_exists then
        raise (IntegrityError (user_auth_identifier s ++ " already associated with an account"))
      else
        let user := set_is_active activate (set_is_verified verify user) in
        UserRepository.add user
  end.

Definition generate_token (s : BaseUserService) (user_id : Ident) (aud : string) : M jwt :=
  t <- datetime_now ;;
  let token := mkToken (t + 60 * 60 * 24) (str user_id) (Some aud) in
  record_signed (Token_encode token (secret s)).

Definition send_verification_token (user : User) (token : jwt) : M unit :=
  dispatch (VerificationToken (id user) token).

Definition send_password_reset_token (user : User) (token : jwt) : M unit :=
  dispatch (PasswordResetToken (id user) token).

Definition initiate_verification (s : BaseUserService) (user : User) : M unit :=
  token <- generate_token s (id user) "verify" ;;
  send_verification_token user token.

Definition register (s : BaseUserService) (data : UserCreate) : M User :=
  lift (pre_registration_hook s data) ;;;
  password_hash <- hash (password_manager s) (create_password data) ;;
  let verify := negb (require_verification_on_registration s) in
  let instance := mkUser unsaved (create_email data) password_hash true false [] []
                         (create_columns data) in
  user <- add_user s instance verify true ;;
  (if require_verification_on_registration s then initiate_verification s user
   else ret tt) ;;;
  lift (post_registration_hook s user) ;;;
  ret user.

Definition get_user (i : Ident) : M User := UserRepository.get i.

Definition authenticate (s : BaseUserService) (data : AuthenticationSchema)
    : M (option User) :=
  should_proceed <- lift (pre_login_hook s data) ;;
  try_except_else
    (UserRepository.get_one
       (lower_column_is (user_auth_identifier s) (lower (auth_identifier data))))
    is_NotFoundError
    (fun _ =>
       verify_and_update (password_manager s) (auth_password data) None ;;;
       ret None)
    (fun user =>
       r <- verify_and_update (password_manager s) (auth_password data)
                              (Some (password_hash user)) ;;
       let '(password_verified, new_password_hash) := r in
       user <- match new_password_hash with
               | Some h => UserRepository._update user (set_password_hash h)
               | None => ret user
               end ;;
       if negb password_verified || negb should_proceed then ret None
       else
         lift (post_login_hook s user) ;;;
         ret (Some user)).

Definition _decode_and_verify_token (s : BaseUserService) (encoded_token : jwt)
    (context : string) : M Token :=
  token <- try_except (Token_decode encoded_token (secret s))
                      is_NotAuthorizedException
                      (fun _ => raise InvalidTokenException) ;;
  if match aud token with
     | Some a => negb (String.eqb a context)
     | None => true
     end
  then raise InvalidTokenException
  else ret token.

(** [try: user_id = UUID(token.sub)  except ValueError: user_id = int(token.sub)]. *)
Definition parse_user_id (sub : string) : M Ident :=
  try_except (n <- lift (UUID sub) ;; ret (IdUUID n))
             is_ValueError
             (fun _ => z <- lift (int sub) ;; ret (IdInt z)).

Definition verify (s : BaseUserService) (encoded_token : jwt) : M User :=
  token <- _decode_and_verify_token s encoded_token "verify" ;;
  user_id <- parse_user_id (sub token) ;;
  user <- try_except (UserRepository.update user_id (set_is_verified true))
                     is_NotFoundError
                     (fun _ => raise InvalidTokenException) ;;
  lift (post_verification_hook s user) ;;;
  ret user.

Definition initiate_password_reset (s : BaseUserService) (email_ : string) : M unit :=
  user <- UserRepository.get_one_or_none
            (fun u => String.eqb (lower (email u)) (lower email_)) ;;
  match user with
  | None =>
      i <- uuid4 ;;
      generate_token s i "reset_password" ;;;
      ret tt
  | Some user =>
      token <- generate_token s (id user) "reset_password" ;;
      send_password_reset_token user token
  end.

Definition reset_password (s : BaseUserService) (encoded_token : jwt) (password : string)
    : M unit :=
  token <- _decode_and_verify_token s encoded_token "reset_password" ;;
  user_id <- parse_user_id (sub token) ;;
  try_except
    (h <- hash (password_manager s) password ;;
     UserRepository.update user_id (set_password_hash h) ;;;
     ret tt)
    is_NotFoundError
    (fun _ => raise InvalidTokenException).

Definition roles_not_configured : exn :=
  ImproperlyConfiguredException "roles have not been configured".
Definition oauth2_not_configured : exn :=
  ImproperlyConfiguredException "oauth2 has not been configured".

Definition get_role (s : BaseUserService) (i : Ident) : M Role :=
  match role_repository s with
  | None => raise roles_not_configured
  | Some _ => RoleRepository.get i
  end.

(** [user.roles] is the loaded relationship, a list; [role in user.roles]
    compares rows, that is primary keys. *)
Definition assign_role (s : BaseUserService) (user_id role_id_ : Ident) : M User :=
  match role_repository s with
  | None => raise roles_not_configured
  | Some _ =>
      user <- get_user user_id ;;
      role <- get_role s role_id_ ;;
      if negb (user_model_has_roles s) then raise roles_not_configured
      else if existsb (Role_eqb role) (roles user) then
        raise (IntegrityError ("user already has role '" ++ role_name role ++ "'"))
      else RoleRepository.assign_role user role
  end.

Definition revoke_role (s : BaseUserService) (user_id role_id_ : Ident) : M User :=
  match role_repository s with
  | None => raise roles_not_configured
  | Some _ =>
      user <- get_user user_id ;;
      role <- get_role s role_id_ ;;
      if negb (user_model_has_roles s) then raise roles_not_configured
      else if negb (existsb (Role_eqb role) (roles user)) then
        raise (IntegrityError ("user does not have role '" ++ role_name role ++ "'"))
      else RoleRepository.revoke_role user role
  end.

(** [get_user_by(email=account_email)]. *)
Definition get_user_by_email (account_email_ : string) : M (option User) :=
  UserRepository.get_one_or_none (fun u => String.eqb (email u) account_email_).

Definition get_by_oauth_account (s : BaseUserService) (oauth account_id_ : string)
    : M User :=
  match oauth2_repository s with
  | None => raise oauth2_not_configured
  | Some _ =>
      owner <- OAuthRepository.get_one oauth account_id_ ;;
      get_user (id owner)
  end.

(** [str(exc)] of a decode error. *)
Definition str_exc (e : exn) : string := "Invalid token".

(** The loop over [user.oauth_accounts] that refreshes the matching rows. *)
Fixpoint update_matching (oauth_name_ account_id_ : string) (data : OAuthAccount)
    (k : nat) (pending : list OAuthAccount) (user : User) : M User :=
  match pending with
  | [] => ret user
  | existing_oauth_account :: rest =>
      user <- (if String.eqb (account_id existing_oauth_account) account_id_
                  && String.eqb (oauth_name existing_oauth_account) oauth_name_
               then OAuthRepository.update_oauth_account user k data
               else ret user) ;;
      update_matching oauth_name_ account_id_ data (S k) rest user
  end.

Definition _oauth2_callback (s : BaseUserService)
    (oauth_name_ account_id_ account_email_ : string)
    (associate_by_email is_verified_by_default : bool)
    (state : jwt) (state_secret : string) (oauth_account_dict : OAuthAccount)
    : M User :=
  match oauth2_repository s with
  | None => raise oauth2_not_configured
  | Some _ =>
      try_except (decode_jwt state state_secret [STATE_TOKEN_AUDIENCE])
                 is_jwt_DecodeError
                 (fun exc => raise (HTTPException HTTP_400_BAD_REQUEST (str_exc exc))) ;;;
      try_except_else
        (get_by_oauth_account s oauth_name_ account_id_)
        is_NotFoundError
        (fun _ =>
           try_except
             (user <- get_user_by_email account_email_ ;;
              match user with
              | None => raise NotFoundError
              | Some user => OAuthRepository.add_oauth_account user oauth_account_dict
              end)
             is_NotFoundError
             (fun _ =>
                if negb associate_by_email then
                  raise (HTTPException HTTP_400_BAD_REQUEST "User already exists.")
                else
                  password <- generate (password_manager s) ;;
                  h <- hash (password_manager s) password ;;
                  user <- UserRepository.add
                            (mkUser unsaved account_email_ h true is_verified_by_default
                                    [] [] []) ;;
                  user <- OAuthRepository.add_oauth_account user oauth_account_dict ;;
                  lift (post_registration_hook s user) ;;;
                  ret user))
        (fun user =>
           update_matching oauth_name_ account_id_ oauth_account_dict 0
                           (oauth_accounts user) user)
  end.

Definition _oauth2_associate_callback (s : BaseUserService) (associate_user : User)
    (state : jwt) (state_secret : string) (oauth_account_dict : OAuthAccount)
    : M User :=
  match oauth2_repository s with
  | None => raise oauth2_not_configured
  | Some _ =>
      state_data <- try_except
                      (decode_jwt state state_secret [STATE_TOKEN_AUDIENCE])
                      is_jwt_DecodeError
                      (fun exc => raise (HTTPException HTTP_400_BAD_REQUEST (str_exc exc))) ;;
      sub_ <- lift (dict_get state_data "sub") ;;
      if negb (String.eqb sub_ (str (id associate_user))) then
        raise (HTTPException HTTP_400_BAD_REQUEST "Bad Request")
      else OAuthRepository.add_oauth_account associate_user oauth_account_dict
  end.

(** ** Notions used by the statements *)

(** The rows whose identifier column equals the submitted one, compared
    case-insensitively. *)
Definition candidates (s : BaseUserService) (data : AuthenticationSchema) (w : World)
    : list User :=
  filter (lower_column_is (user_auth_identifier s) (lower (auth_identifier data)))
         (users w).

(** What the password manager answers for the stored hash of [u]. *)
Definition password_check (s : BaseUserService) (data : AuthenticationSchema)
    (w : World) (u : User) : bool * option string :=
  pm_verify_and_update (password_manager s) (entropy w (draws w))
                       (auth_password data) (Some (password_hash u)).

Definition rehashed (new_password_hash : option string) (u : User) : User :=
  match new_password_hash with
  | Some h => set_password_hash h u
  | None => u
  end.

(** [token.aud != context]. *)
Definition audience_mismatch (token : Token) (context : string) : bool :=
  match aud token with
  | Some a => negb (String.eqb a context)
  | None => true
  end.

(** The value [register] finds under the identifier attribute of the
    instance it builds from [data]. *)
Definition create_identifier (s : BaseUserService) (data : UserCreate) : option string :=
  if String.eqb (user_auth_identifier s) "email" then Some (create_email data)
  else dict_find (create_columns data) (user_auth_identifier s).

(** The error [add_user] raises for a taken identifier. *)
Definition Conflict_identifier (s : BaseUserService) : exn :=
  IntegrityError (user_auth_identifier s ++ " already associated with an account").

(** The rows whose e-mail equals the given one, compared case-insensitively. *)
Definition reset_candidates (email_ : string) (w : World) : list User :=
  filter (fun u => String.eqb (lower (email u)) (lower email_)) (users w).

(** ** The rest of the service *)

(** Modelled from the spec: the repository's delete, which removes the
    row of the given primary key and returns it, failing with NotFound
    when there is none. *)
Definition user_repository_delete (i : Ident) : M User :=
  u <- UserRepository.get i ;;
  w <- get_world ;;
  set_users (filter (fun x => negb (Ident_eqb (id x) i)) (users w)) ;;;
  ret u.

(** The update payload: a model instance carrying the primary key and
    the attributes to change.  Its [password_hash] attribute holds the
    new plaintext password. *)
Record UserUpdate : Type := mkUserUpdate {
  update_id : Ident;
  update_email : option string;
  update_password_hash : option string;
  update_is_active : option bool;
  update_is_verified : option bool
}.

Definition or_keep {A} (new : option A) (old : A) : A :=
  match new with
  | Some v => v
  | None => old
  end.

(** The row after the attributes of the payload are merged into it. *)
Definition merge_update (data : UserUpdate) (u : User) : User :=
  mkUser (id u)
         (or_keep (update_email data) (email u))
         (or_keep (update_password_hash data) (password_hash u))
         (or_keep (update_is_active data) (is_active u))
         (or_keep (update_is_verified data) (is_verified u))
         (roles u) (oauth_accounts u) (columns u).

Definition with_password_hash (h : option string) (data : UserUpdate) : UserUpdate :=
  mkUserUpdate (update_id data) (update_email data) h (update_is_active data)
               (update_is_verified data).

(** [if data.password_hash:] holds for a string that is not empty. *)
Definition update_user (s : BaseUserService) (data : UserUpdate) : M User :=
  data <- match update_password_hash data with
          | Some password =>
              if String.eqb password "" then ret data
              else
                h <- hash (password_manager s) password ;;
                ret (with_password_hash (Some h) data)
          | None => ret data
          end ;;
  UserRepository.update (update_id data) (merge_update data).

Definition delete_user (i : Ident) : M User := user_repository_delete i.

(** The provider's answer to the code exchange: a dict read with
    [token["access_token"]] and [token.get(..)]. *)
Record OAuth2Token : Type := mkOAuth2Token {
  token_access_token : option string;
  token_expires_at : option Z;
  token_refresh_token : option string
}.

(** The OAuth2 provider client: its name and its three calls, each of
    which returns or raises. *)
Record BaseOAuth2 : Type := mkBaseOAuth2 {
  client_name : string;
  get_authorization_url : string -> jwt -> option (list string) -> Res string;
  get_access_token : string -> string -> option string -> Res OAuth2Token;
  get_id_email : string -> Res (string * option string)
}.

(** The query parameters the callback route hands over as [data]. *)
Record CallbackData : Type := mkCallbackData {
  data_code : option string;
  data_code_verifier : option string;
  data_state : option jwt;
  data_error : option string
}.

(** [code.replace("%2F", "/")]. *)
Fixpoint replace_2F (code : string) : string :=
  match code with
  | String "%" (String "2" (String "F" r)) => String "/" (replace_2F r)
  | String c r => String c (replace_2F r)
  | EmptyString => EmptyString
  end.

(** The state parameter as [decode_jwt] receives it: an absent one is no
    token. *)
Definition state_param (o : option jwt) : jwt :=
  match o with
  | Some j => j
  | None => Malformed ""
  end.

Definition oauth2_authorize (s : BaseUserService) (url_for : string -> string)
    (oauth_client : BaseOAuth2) (state_secret callback_route_name : string)
    (scopes : option (list string)) (redirect_url : option string)
    (state_data : option dict) : M string :=
  match oauth2_repository s with
  | None => raise oauth2_not_configured
  | Some _ =>
      let authorize_redirect_url :=
        match redirect_url with
        | Some r => r
        | None => url_for callback_route_name
        end in
      let _state_data := match state_data with Some d => d | None => [] end in
      state <- generate_state_token _state_data state_secret 3600 ;;
      authorization_url <- lift (get_authorization_url oauth_client
                                   authorize_redirect_url state scopes) ;;
      ret authorization_url
  end.

Definition oauth2_callback (s : BaseUserService) (url_for : string -> string)
    (data : CallbackData) (oauth_client : BaseOAuth2)
    (state_secret callback_route_name : string) (redirect_url : option string)
    (associate_by_email is_verified_by_default is_associate_callback : bool)
    (associate_user : option User) : M User :=
  match oauth2_repository s with
  | None => raise oauth2_not_configured
  | Some _ =>
      let _redirect_url :=
        match redirect_url with
        | Some r => r
        | None => url_for callback_route_name
        end in
      _code <- match data_code data with
               | Some code => ret (replace_2F code)
               | None => raise AttributeError
               end ;;
      token <- lift (get_access_token oauth_client _code _redirect_url
                                      (data_code_verifier data)) ;;
      let state := state_param (data_state data) in
      access <- match token_access_token token with
                | Some a => ret a
                | None => raise (KeyError "access_token")
                end ;;
      r <- lift (get_id_email oauth_client access) ;;
      let '(account_id_, account_email_) := r in
      match account_email_ with
      | None =>
          raise (HTTPException HTTP_400_BAD_REQUEST "OAuth account without email")
      | Some account_email_ =>
          let oauth_account_dict :=
            mkOAuthAccount (client_name oauth_client) access account_id_ account_email_
                           (token_expires_at token) (token_refresh_token token) in
          if is_associate_callback then
            match associate_user with
            | None =>
                raise (HTTPException HTTP_400_BAD_REQUEST "Associate user is required")
            | Some associate_user =>
                _oauth2_associate_callback s associate_user state state_secret
                                           oauth_account_dict
            end
          else
            _oauth2_callback s (client_name oauth_client) account_id_ account_email_
                             associate_by_email is_verified_by_default state state_secret
                             oauth_account_dict
      end
  end.

(** ** Route handlers (src/litestar_users/route_handlers.py) *)

Inductive AuthBackend : Type := JWTAuth | JWTCookieAuth | SessionAuth.

(** The request session, of which the handlers write the key [user_id]. *)
Definition Session : Type := list (string * Ident).

Fixpoint session_set (session : Session) (k : string) (v : Ident) : Session :=
  match session with
  | [] => [(k, v)]
  | (k', v') :: r =>
      if String.eqb k' k then (k, v) :: r else (k', v') :: session_set r k v
  end.

Fixpoint session_get (session : Session) (k : string) : option Ident :=
  match session with
  | [] => None
  | (k', v) :: r => if String.eqb k' k then Some v else session_get r k
  end.

(** What a login answers: the response [auth_backend.login] builds for an
    identifier, or the user as content of a 201 response. *)
Inductive Response : Type :=
| LoginResponse (identifier : string) (response_body : User)
| Created (content : User).

(** [PermissionDeniedException] is the [HTTPException] of status 403. *)
Definition PermissionDeniedException (detail : string) : exn := HTTPException 403 detail.

Definition HTTP_401_UNAUTHORIZED : Z := 401.

(** A handler reads and writes the request session beside the state. *)
Definition Handler (A : Type) : Type := Session -> World -> Res A * Session * World.

Definition login_session (auth_backend : AuthBackend) (s : BaseUserService)
    (data : AuthenticationSchema) : Handler User :=
  fun session w =>
    match auth_backend with
    | SessionAuth =>
        match authenticate s data w with
        | (Return None, w') => (Raise NotAuthorizedException, [], w')
        | (Return (Some user), w') =>
            (Return user, session_set session "user_id" (id user), w')
        | (Raise e, w') => (Raise e, session, w')
        end
    | _ =>
        (Raise (ImproperlyConfiguredException
                  "session login can only be used with SesssionAuth"), session, w)
    end.

Definition login_jwt (auth_backend : AuthBackend) (s : BaseUserService)
    (data : AuthenticationSchema) : M Response :=
  match auth_backend with
  | SessionAuth =>
      raise (ImproperlyConfiguredException "jwt login can only be used with JWTAuth")
  | _ =>
      user <- authenticate s data ;;
      match user with
      | None => raise NotAuthorizedException
      | Some user =>
          if negb (is_verified user) then raise (PermissionDeniedException "not verified")
          else ret (LoginResponse (str (id user)) user)
      end
  end.

(** The tail shared by the two OAuth2 callback routes. *)
Definition finish_login (auth_backend : AuthBackend) (user : User) (session : Session)
    : Response * Session :=
  match auth_backend with
  | SessionAuth => (Created user, session_set session "user_id" (id user))
  | _ => (LoginResponse (str (id user)) user, session)
  end.

(** The [callback] route of [get_oauth2_handler]. *)
Definition oauth2_callback_route (auth_backend : AuthBackend) (s : BaseUserService)
    (url_for : string -> string) (oauth_client : BaseOAuth2) (state_secret : string)
    (redirect_url : option string) (associate_by_email is_verified_by_default : bool)
    (params : CallbackData) : Handler Response :=
  fun session w =>
    let callback_route_name := "oauth2:" ++ client_name oauth_client ++ ".callback" in
    match oauth2_callback s url_for params oauth_client state_secret callback_route_name
                          redirect_url associate_by_email is_verified_by_default
                          false None w with
    | (Raise e, w') => (Raise e, session, w')
    | (Return user, w') =>
        if negb (is_active user) then
          (Raise (HTTPException HTTP_400_BAD_REQUEST "User is not active."), session, w')
        else
          let '(response, session') := finish_login auth_backend user session in
          (Return response, session', w')
    end.

(** The [callback] route of [get_oauth2_associate_handler], for the
    authenticated [request_user]. *)
Definition oauth2_associate_callback_route (auth_backend : AuthBackend)
    (s : BaseUserService) (url_for : string -> string) (oauth_client : BaseOAuth2)
    (state_secret : string) (redirect_url : option string)
    (associate_by_email is_verified_by_default : bool)
    (request_user : User) (params : CallbackData) : Handler Response :=
  fun session w =>
    let callback_route_name :=
      "oauth2-associate:" ++ client_name oauth_client ++ ".callback" in
    match get_user (id request_user) w with
    | (Raise e, w') => (Raise e, session, w')
    | (Return user, w') =>
        if negb (is_active user) then
          (Raise (HTTPException HTTP_401_UNAUTHORIZED "User is not active."), session, w')
        else
          match oauth2_callback s url_for params oauth_client state_secret
                                callback_route_name redirect_url associate_by_email
                                is_verified_by_default true (Some user) w' with
          | (Raise e, w'') => (Raise e, session, w'')
          | (Return user, w'') =>
              let '(response, session') := finish_login auth_backend user session in
              (Return response, session', w'')
          end
    end.

(** The [authorize] route of [get_oauth2_associate_handler]. *)
Definition oauth2_associate_authorize_route (s : BaseUserService)
    (url_for : string -> string) (oauth_client : BaseOAuth2) (state_secret : string)
    (redirect_url : option string) (request_user : User)
    (scopes : option (list string)) : M string :=
  let callback_route_name :=
    "oauth2-associate:" ++ client_name oauth_client ++ ".callback" in
  oauth2_authorize s url_for oauth_client state_secret callback_route_name scopes
                   redirect_url (Some [("sub", str (id request_user))]).

(** ** Further notions used by the statements *)

(** The token [generate_token] issues at time [t]. *)
Definition issued_token (s : BaseUserService) (user_id : Ident) (aud_ : string) (t : Z)
    : jwt :=
  Token_encode (mkToken (t + 60 * 60 * 24) (str user_id) (Some aud_)) (secret s).

(** The id survives [str] and the conversion back of [verify] and
    [reset_password]. *)
Definition id_round_trips (i : Ident) : Prop :=
  forall w, parse_user_id (str i) w = (Return i, w).

(** The state with the user table replaced, one unit of entropy spent,
    one message more in the outbox, or one token more signed. *)
Definition with_users (us : list User) (w : World) : World :=
  mkWorld us (role_table w) (pk_source w) (next_pk w) (now w) (entropy w) (draws w)
          (outbox w) (signed_tokens w).

Definition spend_draw (w : World) : World :=
  mkWorld (users w) (role_table w) (pk_source w) (next_pk w) (now w) (entropy w)
          (S (draws w)) (outbox w) (signed_tokens w).

Definition with_message (m : Message) (w : World) : World :=
  mkWorld (users w) (role_table w) (pk_source w) (next_pk w) (now w) (entropy w)
          (draws w) (outbox w ++ [m]) (signed_tokens w).

Definition with_signed (token : jwt) (w : World) : World :=
  mkWorld (users w) (role_table w) (pk_source w) (next_pk w) (now w) (entropy w)
          (draws w) (outbox w) (signed_tokens w ++ [token]).

(** The row with primary key [i], as [get_user] finds it. *)
Definition row (i : Ident) (w : World) : option User :=
  find (fun u => Ident_eqb (id u) i) (users w).

(** The accounts of a user after the refresh loop of [_oauth2_callback]:
    every account of the provider identity takes the new values. *)
Definition refreshed_accounts (oauth_name_ account_id_ : string) (data : OAuthAccount)
    (l : list OAuthAccount) : list OAuthAccount :=
  map (fun a => if same_account oauth_name_ account_id_ a then data else a) l.

(** The same, as the loop computes it: position by position from [k]. *)
Fixpoint refresh_from (oauth_name_ account_id_ : string) (data : OAuthAccount)
    (k : nat) (pending accounts : list OAuthAccount) : list OAuthAccount :=
  match pending with
  | [] => accounts
  | e :: rest =>
      refresh_from oauth_name_ account_id_ data (S k) rest
        (if same_account oauth_name_ account_id_ e then replace_nth k data accounts
         else accounts)
  end.

(** The owners of the accounts of a provider identity, as the
    OAuth-account repository looks them up. *)
Definition account_owners (oauth_name_ account_id_ : string) (w : World) : list User :=
  flat_map (fun u => map (fun _ => u)
                         (filter (same_account oauth_name_ account_id_) (oauth_accounts u)))
           (users w).


End Service.

(** ** Stand-ins for the Python built-ins *)

(** The worked instances need the built-ins on concrete text.  These
    stand-ins follow Python on ASCII text, and [lower_basic] also on the
    Latin-1 and the basic Cyrillic letters; nothing proved in general
    depends on them. *)

Definition code_between (lo hi : nat) (c : ascii) : bool :=
  Nat.leb lo (nat_of_ascii c) && Nat.leb (nat_of_ascii c) hi.

Definition shift_code (c : ascii) (up down : nat) : ascii :=
  ascii_of_nat (nat_of_ascii c + up - down).

Definition ascii_lower (c : ascii) : ascii :=
  if code_between 65 90 c then shift_code c 32 0 else c.

(** The lower-case form of a two-byte UTF-8 letter, if it has another. *)
Definition lower_two_bytes (c d : ascii) : option (ascii * ascii) :=
  if Nat.eqb (nat_of_ascii c) 195 then
    if code_between 128 158 d && negb (Nat.eqb (nat_of_ascii d) 151)
    then Some (c, shift_code d 32 0) else None
  else if Nat.eqb (nat_of_ascii c) 208 then
    if code_between 144 159 d then Some (c, shift_code d 32 0)
    else if code_between 160 175 d then Some (ascii_of_nat 209, shift_code d 0 32)
    else if code_between 128 143 d then Some (ascii_of_nat 209, shift_code d 16 0)
    else None
  else None.

Fixpoint lower_basic (s : string) : string :=
  match s with
  | EmptyString => EmptyString
  | String c r =>
      match r with
      | String d r' =>
          match lower_two_bytes c d with
          | Some (c', d') => String c' (String d' (lower_basic r'))
          | None => String (ascii_lower c) (lower_basic r)
          end
      | EmptyString => String (ascii_lower c) EmptyString
      end
  end.

Fixpoint remove_char (x : ascii) (s : string) : string :=
  match s with
  | EmptyString => EmptyString
  | String c r => if Ascii.eqb c x then remove_char x r else String c (remove_char x r)
  end.

Fixpoint lstrip (p : ascii -> bool) (s : string) : string :=
  match s with
  | EmptyString => EmptyString
  | String c r => if p c then lstrip p r else s
  end.

Fixpoint rstrip (p : ascii -> bool) (s : string) : string :=
  match s with
  | EmptyString => EmptyString
  | String c r =>
      match rstrip p r with
      | EmptyString => if p c then EmptyString else String c EmptyString
      | r' => String c r'
      end
  end.

Definition strip (p : ascii -> bool) (s : string) : string := rstrip p (lstrip p s).

Definition is_space (c : ascii) : bool :=
  Nat.eqb (nat_of_ascii c) 32 || code_between 9 13 c || code_between 28 31 c.

Definition is_decimal_digit (c : ascii) : bool := code_between 48 57 c.

Definition is_hex_digit (c : ascii) : bool :=
  code_between 48 57 c || code_between 97 102 c || code_between 65 70 c.

(** Digits, with single underscores between them only. *)
Fixpoint digits_ok (digit : ascii -> bool) (after_digit : bool) (s : string) : bool :=
  match s with
  | EmptyString => after_digit
  | String c r =>
      if digit c then digits_ok digit true r
      else if Ascii.eqb c "_" then after_digit && digits_ok digit false r
      else false
  end.

Fixpoint map_string (f : ascii -> ascii) (s : string) : string :=
  match s with
  | EmptyString => EmptyString
  | String c r => String (f c) (map_string f r)
  end.

(** [int(s)]: blanks around, a sign, decimal digits with underscores. *)
Definition int_basic (s : string) : Res Z :=
  let body := strip is_space s in
  let '(negative, digits) :=
    match body with
    | String "-" r => (true, r)
    | String "+" r => (false, r)
    | _ => (false, body)
    end in
  if digits_ok is_decimal_digit false digits then
    match DecimalString.NilEmpty.uint_of_string (remove_char "_" digits) with
    | Some d => Return (if negative then - Z.of_N (N.of_uint d) else Z.of_N (N.of_uint d))
    | None => Raise ValueError
    end
  else Raise ValueError.

Fixpoint remove_urn (s : string) : string :=
  match s with
  | String "u" (String "r" (String "n" (String ":" r))) => remove_urn r
  | String c r => String c (remove_urn r)
  | EmptyString => EmptyString
  end.

Fixpoint remove_uuid (s : string) : string :=
  match s with
  | String "u" (String "u" (String "i" (String "d" (String ":" r)))) => remove_uuid r
  | String c r => String c (remove_uuid r)
  | EmptyString => EmptyString
  end.

Definition is_brace (c : ascii) : bool := Ascii.eqb c "{" || Ascii.eqb c "}".

(** [int(hex, 16)], as [uuid.UUID] calls it. *)
Definition int16_basic (hex : string) : option N :=
  let body := strip is_space hex in
  let unsigned :=
    match body with
    | String "+" r => Some r
    | String "-" _ => None
    | _ => Some body
    end in
  match unsigned with
  | None => None
  | Some u =>
      let digits :=
        match u with
        | String "0" (String "x" (String "_" r)) => r
        | String "0" (String "X" (String "_" r)) => r
        | String "0" (String "x" r) => r
        | String "0" (String "X" r) => r
        | _ => u
        end in
      if digits_ok is_hex_digit false digits then
        match HexadecimalString.NilEmpty.uint_of_string
                (map_string ascii_lower (remove_char "_" digits)) with
        | Some d => Some (N.of_hex_uint d)
        | None => None
        end
      else None
  end.

(** [uuid.UUID(s)]. *)
Definition UUID_basic (s : string) : Res N :=
  let hex := remove_char "-" (strip is_brace (remove_uuid (remove_urn s))) in
  if Nat.eqb (String.length hex) 32 then
    match int16_basic hex with
    | Some n => Return n
    | None => Raise ValueError
    end
  else Raise ValueError.

Definition basic_builtins : Builtins :=
  {| lower := lower_basic; UUID := UUID_basic; int := int_basic |}.

(** ** A small deployment, for the worked instances *)

(** A password manager with a deprecated scheme [old$] and a preferred
    scheme [new$]. *)
Definition demo_password_manager : PasswordManager :=
  mkPasswordManager
    (fun _ password => "new$" ++ password)
    (fun _ password stored =>
       match stored with
       | None => (false, None)
       | Some h =>
           if String.eqb h ("new$" ++ password) then (true, None)
           else if String.eqb h ("old$" ++ password)
                then (true, Some ("new$" ++ password))
                else (false, None)
       end)
    (fun _ => "generated").

Definition demo_service (hook_allows : bool) : BaseUserService :=
  mkService "s3cret" "email" demo_password_manager
            (Some SQLAlchemyRepository) (Some SQLAlchemyRepository) true true
            (fun _ => Return hook_allows) (fun _ => Return tt) (fun _ => Return tt)
            (fun _ => Return tt) (fun _ => Return tt).

Definition admin : Role := mkRole (IdInt 7) "admin".

Definition alice : User :=
  mkUser (IdInt 1) "Alice@Example.com" "old$pw1" true true [] [] [].

Definition demo_world : World :=
  mkWorld [alice] [admin] (fun n => IdInt (Z.of_nat n)) 2 1000
          (fun n => N.of_nat n) 0 [] [].

(** A verification token for a user id that no row carries. *)
Definition stale_token : jwt :=
  Signed "s3cret" (mkClaims (Some 5000) [("sub", "99"); ("aud", "verify")]).

(** A reset token for the same id. *)
Definition stale_reset_token : jwt :=
  Signed "s3cret" (mkClaims (Some 5000) [("sub", "99"); ("aud", "reset_password")]).

(** A correctly signed token whose expiry has passed. *)
Definition expired_claims : Claims :=
  mkClaims (Some 900) [("sub", "1"); ("aud", "verify")].

Definition bob_signup : UserCreate := mkUserCreate "bob@example.com" "pw2" [].

Definition github_account : OAuthAccount :=
  mkOAuthAccount "github" "gho_token" "gh-42" "Alice@Example.com" None None.

(** State tokens as [oauth2_authorize] issues them: for another user's
    session, and with empty [state_data]. *)
Definition state_for_other : jwt :=
  Signed "state-secret"
    (mkClaims (Some 4600) [("sub", "2"); ("aud", STATE_TOKEN_AUDIENCE)]).

Definition state_without_subject : jwt :=
  Signed "state-secret" (mkClaims (Some 4600) [("aud", STATE_TOKEN_AUDIENCE)]).

Definition alice_login : AuthenticationSchema := mkAuth "alice@EXAMPLE.com" "pw1".

(** ** A second deployment, with an unverified and an inactive user *)

Definition bob : User :=
  mkUser (IdInt 2) "bob@example.com" "new$pw2" true false [] [] [].

Definition carol : User :=
  mkUser (IdInt 3) "carol@example.com" "new$pw3" false true [] [github_account] [].

Definition office_world : World :=
  mkWorld [alice; bob; carol] [admin] (fun n => IdInt (Z.of_nat n)) 4 1000
          (fun n => N.of_nat n) 0 [] [].

Definition bob_login : AuthenticationSchema := mkAuth "Bob@Example.com" "pw2".

Definition dave_account : OAuthAccount :=
  mkOAuthAccount "github" "gho_dave" "gh-77" "dave@example.com" None None.

Definition alice_variant_account : OAuthAccount :=
  mkOAuthAccount "github" "gho_x" "gh-78" "ALICE@example.com" None None.

(** The first deployment after a provider has signed in an account whose
    e-mail is Alice's in another casing, with [associate_by_email] set:
    [_oauth2_callback] has stored a second user under that e-mail. *)
Definition twin_world : World :=
  snd (_oauth2_callback (demo_service true) "github" "gh-78" "ALICE@example.com"
         true false state_without_subject "state-secret" alice_variant_account
         demo_world).

Definition bob_new_password : UserUpdate :=
  mkUserUpdate (IdInt 2) None (Some "pw9") None None.

(** A provider client that knows Carol, and one whose accounts have no
    e-mail. *)
Definition github : BaseOAuth2 :=
  mkBaseOAuth2 "github"
    (fun redirect _ _ => Return ("https://github.example/authorize?redirect_uri=" ++ redirect))
    (fun code _ _ => Return (mkOAuth2Token (Some ("gho_" ++ code)) (Some 9000) None))
    (fun _ => Return ("gh-42", Some "carol@example.com")).

Definition mute_provider : BaseOAuth2 :=
  mkBaseOAuth2 "mute"
    (fun redirect _ _ => Return redirect)
    (fun code _ _ => Return (mkOAuth2Token (Some code) None None))
    (fun _ => Return ("m-1", None)).

Definition demo_url_for (route_name : string) : string := "https://app.example/" ++ route_name.

Definition callback_params (state : jwt) : CallbackData :=
  mkCallbackData (Some "c0de%2Fx") None (Some state) None.

Definition carol_renewed : OAuthAccount :=
  mkOAuthAccount "github" "gho_c0de/x" "gh-42" "carol@example.com" (Some 9000) None.

Definition bob_signup_login : AuthenticationSchema := mkAuth "Bob@Example.COM" "pw2".

Definition bob_wrong_password : AuthenticationSchema := mkAuth "bob@example.com" "guess".

Definition nobody_login : AuthenticationSchema := mkAuth "nobody@example.com" "guess".

(** A correctly signed verification token whose subject is no id. *)
Definition odd_subject_token : jwt :=
  Signed "s3cret" (mkClaims (Some 5000) [("sub", "not-an-id"); ("aud", "verify")]).

Definition odd_subject_reset_token : jwt :=
  Signed "s3cret" (mkClaims (Some 5000) [("sub", "not-an-id"); ("aud", "reset_password")]).

(** ** Reasoning support *)

Ltac unfold_svc :=
  unfold try_except, try_except_else, bind, ret, raise, lift, get_world, set_users,
    fresh_pk, draw, datetime_now, uuid4, dispatch, record_signed in *.

Section Properties.

Context {py : Builtins}.

Lemma Ident_eqb_eq a b : Ident_eqb a b = true <-> a = b.
Proof.
  destruct a, b; simpl; split; intro H; try discriminate.
  - apply N.eqb_eq in H. now subst.
  - injection H as ->. apply N.eqb_refl.
  - apply Z.eqb_eq in H. now subst.
  - injection H as ->. apply Z.eqb_refl.
Qed.

Lemma Ident_eqb_refl a : Ident_eqb a a = true.
Proof. now apply Ident_eqb_eq. Qed.


Lemma find_filter {A} (p : A -> bool) (l : list A) :
  find p l = match filter p l with [] => None | x :: _ => Some x end.
Proof.
  induction l as [|a l IH]; simpl; [reflexivity|].
  destruct (p a); [reflexivity | exact IH].
Qed.

Lemma filter_nil_existsb {A} (p : A -> bool) (l : list A) :
  filter p l = [] <-> existsb p l = false.
Proof.
  induction l as [|a l IH]; simpl; [tauto|].
  destruct (p a); simpl; [split; discriminate | exact IH].
Qed.

Lemma filter_singleton_In {A} (p : A -> bool) (l : list A) (x : A) :
  filter p l = [x] -> In x l /\ p x = true.
Proof.
  intro H. apply filter_In. rewrite H. now left.
Qed.

Lemma find_replace_user (u u' : User) (us : list User) :
  id u' = id u ->
  find (fun x => Ident_eqb (id x) (id u)) us = Some u ->
  find (fun x => Ident_eqb (id x) (id u)) (replace_user u' us) = Some u'.
Proof.
  intros Hid. induction us as [|a us IH]; simpl; [discriminate|].
  rewrite Hid.
  destruct (Ident_eqb (id a) (id u)) eqn:E.
  - intros _. rewrite Hid, Ident_eqb_refl. reflexivity.
  - rewrite E. exact IH.
Qed.

(** ** Authentication *)

(** C2. Where at most one row matches the identifier case-insensitively,
    [authenticate] returns the user exactly when the password verifies
    against the stored hash and the pre-login hook returned true.  In every
    other case it returns [None]; when no row matches the identifier the
    dummy verification [verify_and_update(password, None)] still runs
    before [None] is returned. *)
Theorem authenticate_success_iff
    (s : BaseUserService) (data : AuthenticationSchema) (w : World) (should_proceed : bool)
    (Hpre : pre_login_hook s data = Return should_proceed)
    (Hpost : forall u, post_login_hook s u = Return tt)
    (Huniq : (length (candidates s data w) <= 1)%nat) :
  (forall user,
      fst (authenticate s data w) = Return (Some user) <->
      exists stored,
        candidates s data w = [stored] /\
        fst (password_check s data w stored) = true /\
        should_proceed = true /\
        user = rehashed (snd (password_check s data w stored)) stored) /\
  (~ (exists stored,
         candidates s data w = [stored] /\
         fst (password_check s data w stored) = true /\
         should_proceed = true) ->
   fst (authenticate s data w) = Return None) /\
  (candidates s data w = [] ->
   authenticate s data w =
   (verify_and_update (password_manager s) (auth_password data) None ;;; ret None) w).
Proof.
  unfold candidates, password_check in *.
  unfold authenticate, UserRepository.get_one, UserRepository.get_one_or_none,
    UserRepository._update, verify_and_update.
  unfold_svc. rewrite Hpre.
  destruct (filter _ (users w)) as [|u [|u2 rest]] eqn:F; simpl in *.
  - repeat split.
    + discriminate.
    + intros (st & H & _). discriminate.
  - destruct (pm_verify_and_update _ _ _ _) as [verified new_hash] eqn:V.
    destruct new_hash as [h|]; simpl; rewrite ?Hpost;
      destruct verified, should_proceed; simpl;
      (split; [ intro user; split;
                [ intro H; try discriminate; injection H as <-;
                  exists u; rewrite V; simpl; repeat split
                | intros (st & E & Hv & Hs & Hu); injection E as <-;
                  rewrite V in Hv, Hu; simpl in Hv, Hu; subst;
                  try discriminate; reflexivity ]
              | split; [ intro H; try reflexivity;
                         exfalso; apply H; exists u; rewrite V; repeat split
                       | discriminate ] ]).
  - lia.
Qed.

Lemma In_replace_user (u u' : User) (us : list User) :
  id u' = id u -> In u us -> In u' (replace_user u' us).
Proof.
  intros Hid Hin. unfold replace_user. apply in_map_iff.
  exists u. rewrite Hid, Ident_eqb_refl. auto.
Qed.

(** C9. When the stored hash is of a deprecated scheme and the password
    matches (the password manager answers [(True, new_hash)]),
    [authenticate] writes [new_hash] to the stored row whatever the
    pre-login hook returned: with a hook that returned false the login is
    rejected with [None] and the row's [password_hash] has still been
    replaced, every other field of the row, every other row and every
    other table being as before. *)
Theorem authenticate_rehash_persists_when_rejected
    (s : BaseUserService) (data : AuthenticationSchema) (w : World)
    (stored : User) (new_password_hash : string) (should_proceed : bool)
    (Hpre : pre_login_hook s data = Return should_proceed)
    (Hfound : candidates s data w = [stored])
    (Hcheck : password_check s data w stored = (true, Some new_password_hash)) :
  let w' := snd (authenticate s data w) in
  let stored' := set_password_hash new_password_hash stored in
  (should_proceed = false -> fst (authenticate s data w) = Return None) /\
  users w' =
    map (fun u => if Ident_eqb (id u) (id stored) then stored' else u) (users w) /\
  In stored' (users w') /\
  password_hash stored' = new_password_hash /\
  (id stored', email stored', is_active stored', is_verified stored',
   roles stored', oauth_accounts stored', columns stored') =
  (id stored, email stored, is_active stored, is_verified stored,
   roles stored, oauth_accounts stored, columns stored) /\
  role_table w' = role_table w /\ outbox w' = outbox w /\ now w' = now w.
Proof.
  assert (Hin : In stored (users w)).
  { apply (filter_singleton_In _ _ _ Hfound). }
  unfold candidates, password_check in *.
  unfold authenticate, UserRepository.get_one, UserRepository.get_one_or_none,
    UserRepository._update, verify_and_update.
  unfold_svc. rewrite Hpre, Hfound. simpl. rewrite Hcheck. simpl.
  destruct should_proceed; simpl.
  - destruct (post_login_hook s _); simpl;
      (repeat split; [discriminate | now apply (In_replace_user stored)]).
  - repeat split. now apply (In_replace_user stored).
Qed.

(** ** Tokens *)

Lemma Token_decode_run (encoded_token : jwt) (key : string) (w : World) (r : Res Token) :
  fst (Token_decode encoded_token key w) = r ->
  Token_decode encoded_token key w = (r, w).
Proof.
  intros <-. unfold Token_decode. unfold_svc.
  destruct encoded_token as [k p|raw]; simpl; [|reflexivity].
  destruct (negb (String.eqb k key)); [reflexivity|].
  destruct (claim_exp p) as [e|]; [|reflexivity].
  destruct (e <=? now w); [reflexivity|].
  destruct (dict_find (claim_fields p) "sub") as [[|c r]|]; reflexivity.
Qed.

Lemma parse_user_id_run (sub_ : string) (w : World) (r : Res Ident) :
  fst (parse_user_id sub_ w) = r -> parse_user_id sub_ w = (r, w).
Proof.
  intros <-. unfold parse_user_id. unfold_svc.
  destruct (UUID sub_) as [n|e]; simpl; [reflexivity|].
  destruct (is_ValueError e); [|reflexivity].
  destruct (int sub_); reflexivity.
Qed.

Lemma find_absent (i : Ident) (us : list User) :
  (forall u, In u us -> id u <> i) ->
  find (fun u => Ident_eqb (id u) i) us = None.
Proof.
  intro H. destruct (find _ us) as [u|] eqn:F; [|reflexivity].
  apply find_some in F. destruct F as [Hin Heq].
  apply Ident_eqb_eq in Heq. now apply H in Hin.
Qed.

Lemma decode_and_verify_run (s : BaseUserService) (encoded_token : jwt)
    (context : string) (w : World) (token : Token) :
  Token_decode encoded_token (secret s) w = (Return token, w) ->
  _decode_and_verify_token s encoded_token context w =
  (if audience_mismatch token context then Raise InvalidTokenException else Return token, w).
Proof.
  intro H. unfold _decode_and_verify_token, audience_mismatch. unfold_svc.
  rewrite H. destruct (aud token) as [a|]; [|reflexivity].
  destruct (negb (String.eqb a context)); reflexivity.
Qed.

(** C3. A token that decodes under the service secret (well formed,
    correctly signed, unexpired) and whose subject parses to an id that no
    user row carries makes both [verify] and [reset_password] fail with
    [InvalidTokenException], not with [NotFoundError]; [verify] leaves the
    user table as it was. *)
Theorem stale_subject_is_invalid_token
    (s : BaseUserService) (encoded_token : jwt) (password : string) (w : World)
    (token : Token) (user_id : Ident)
    (Hdecode : fst (Token_decode encoded_token (secret s) w) = Return token)
    (Hsub : fst (parse_user_id (sub token) w) = Return user_id)
    (Hgone : forall u, In u (users w) -> id u <> user_id) :
  fst (verify s encoded_token w) = Raise InvalidTokenException /\
  fst (reset_password s encoded_token password w) = Raise InvalidTokenException /\
  fst (verify s encoded_token w) <> Raise NotFoundError /\
  fst (reset_password s encoded_token password w) <> Raise NotFoundError /\
  users (snd (verify s encoded_token w)) = users w /\
  users (snd (reset_password s encoded_token password w)) = users w.
Proof.
  apply Token_decode_run in Hdecode. apply parse_user_id_run in Hsub.
  apply find_absent in Hgone.
  assert (Hv : fst (verify s encoded_token w) = Raise InvalidTokenException /\
               users (snd (verify s encoded_token w)) = users w).
  { unfold verify, bind.
    rewrite (decode_and_verify_run _ _ _ _ _ Hdecode).
    destruct (audience_mismatch token "verify"); [split; reflexivity|].
    rewrite Hsub.
    unfold UserRepository.update, UserRepository.get. unfold_svc. rewrite Hgone.
    split; reflexivity. }
  assert (Hr : fst (reset_password s encoded_token password w) = Raise InvalidTokenException /\
               users (snd (reset_password s encoded_token password w)) = users w).
  { unfold reset_password, bind.
    rewrite (decode_and_verify_run _ _ _ _ _ Hdecode).
    destruct (audience_mismatch token "reset_password"); [split; reflexivity|].
    rewrite Hsub.
    unfold hash, UserRepository.update, UserRepository.get. unfold_svc. simpl.
    rewrite Hgone. split; reflexivity. }
  destruct Hv as [Hv1 Hv2], Hr as [Hr1 Hr2].
  rewrite Hv1, Hr1. repeat split; try assumption; discriminate.
Qed.

(** A subject that is neither a UUID nor an integer is not covered by C3:
    the second conversion raises [ValueError], which [verify] lets through. *)
Lemma verify_unparseable_subject
    (s : BaseUserService) (encoded_token : jwt) (w : World) (token : Token)
    (Hdecode : fst (Token_decode encoded_token (secret s) w) = Return token)
    (Haud : aud token = Some "verify")
    (Hsub : fst (parse_user_id (sub token) w) = Raise ValueError) :
  verify s encoded_token w = (Raise ValueError, w).
Proof.
  apply Token_decode_run in Hdecode. apply parse_user_id_run in Hsub.
  unfold verify, bind.
  rewrite (decode_and_verify_run _ _ _ _ _ Hdecode).
  unfold audience_mismatch. rewrite Haud. simpl. rewrite Hsub. reflexivity.
Qed.

(** C4. A token issued with audience [verify] is refused with
    [InvalidTokenException] when decoded for [reset_password], and the
    other way round, at whatever time it is presented; and a token whose
    expiry is not in the future is refused with [InvalidTokenException]
    although it is signed with the service secret. *)
Theorem token_audience_and_expiry_enforced (s : BaseUserService) :
  (forall user_id w w',
      match generate_token s user_id "verify" w with
      | (Return issued, _) =>
          fst (_decode_and_verify_token s issued "reset_password" w')
          = Raise InvalidTokenException
      | (Raise _, _) => False
      end) /\
  (forall user_id w w',
      match generate_token s user_id "reset_password" w with
      | (Return issued, _) =>
          fst (_decode_and_verify_token s issued "verify" w')
          = Raise InvalidTokenException
      | (Raise _, _) => False
      end) /\
  (forall payload expiry context w,
      claim_exp payload = Some expiry ->
      expiry <= now w ->
      fst (_decode_and_verify_token s (Signed (secret s) payload) context w)
      = Raise InvalidTokenException).
Proof.
  repeat split.
  - intros user_id w w'.
    unfold generate_token, Token_encode, _decode_and_verify_token, Token_decode.
    unfold_svc. simpl. rewrite String.eqb_refl. simpl.
    destruct (_ <=? now w'); [reflexivity|].
    destruct (str user_id); unfold dict_find; simpl; reflexivity.
  - intros user_id w w'.
    unfold generate_token, Token_encode, _decode_and_verify_token, Token_decode.
    unfold_svc. simpl. rewrite String.eqb_refl. simpl.
    destruct (_ <=? now w'); [reflexivity|].
    destruct (str user_id); unfold dict_find; simpl; reflexivity.
  - intros payload expiry context w Hexp Hpast.
    unfold _decode_and_verify_token, Token_decode.
    unfold_svc. simpl. rewrite String.eqb_refl, Hexp. simpl.
    apply Z.leb_le in Hpast. rewrite Hpast. reflexivity.
Qed.

(** ** Registration *)

Lemma existsb_false_iff {A} (p : A -> bool) (l : list A) :
  existsb p l = false <-> forall x, In x l -> p x = false.
Proof.
  induction l as [|a l IH]; simpl.
  - split; [intros _ x [] | reflexivity].
  - rewrite orb_false_iff, IH. split.
    + intros [Ha Hl] x [<-|Hx]; auto.
    + intro H. split; [apply H; now left | intros x Hx; apply H; now right].
Qed.

Lemma add_user_conflict (s : BaseUserService) (user : User) (verify_ activate : bool)
    (w : World) (x : string) :
  getattr user (user_auth_identifier s) = Some x ->
  existsb (lower_column_is (user_auth_identifier s) (lower x)) (users w) = true ->
  add_user s user verify_ activate w = (Raise (Conflict_identifier s), w).
Proof.
  intros Hx Hex. unfold add_user, UserRepository.exists_. unfold_svc.
  rewrite Hx, Hex. reflexivity.
Qed.

Lemma add_user_fresh (s : BaseUserService) (user : User) (verify_ activate : bool)
    (w : World) (x : string) :
  getattr user (user_auth_identifier s) = Some x ->
  existsb (lower_column_is (user_auth_identifier s) (lower x)) (users w) = false ->
  let user' := set_id (pk_source w (next_pk w))
                      (set_is_active activate (set_is_verified verify_ user)) in
  add_user s user verify_ activate w =
  (Return user',
   mkWorld (users w ++ [user']) (role_table w) (pk_source w) (S (next_pk w)) (now w)
           (entropy w) (draws w) (outbox w) (signed_tokens w)).
Proof.
  intros Hx Hex. unfold add_user, UserRepository.exists_, UserRepository.add. unfold_svc.
  rewrite Hx, Hex. reflexivity.
Qed.


(** ** Roles *)

Lemma get_user_run (i : Ident) (w : World) (r : Res User) :
  fst (get_user i w) = r -> get_user i w = (r, w).
Proof.
  intros <-. unfold get_user, UserRepository.get.
  destruct (find _ (users w)); reflexivity.
Qed.

Lemma get_role_run (s : BaseUserService) (i : Ident) (w : World) (r : Res Role) :
  fst (get_role s i w) = r -> get_role s i w = (r, w).
Proof.
  intros <-. unfold get_role, RoleRepository.get, raise.
  destruct (role_repository s); [|reflexivity].
  destruct (find _ (role_table w)); reflexivity.
Qed.

Lemma get_user_found (i : Ident) (w : World) (u : User) :
  fst (get_user i w) = Return u ->
  find (fun x => Ident_eqb (id x) i) (users w) = Some u /\ id u = i.
Proof.
  unfold get_user, UserRepository.get.
  destruct (find _ (users w)) as [x|] eqn:F; simpl; [|discriminate].
  intro H. injection H as ->. split; [reflexivity|].
  apply find_some in F. now apply Ident_eqb_eq.
Qed.

Lemma existsb_app_last {A} (p : A -> bool) (l : list A) (x : A) :
  p x = true -> existsb p (l ++ [x]) = true.
Proof.
  intro H. rewrite existsb_app. simpl. rewrite H. apply orb_true_iff. right. reflexivity.
Qed.

Lemma Role_eqb_refl (r : Role) : Role_eqb r r = true.
Proof. apply Ident_eqb_refl. Qed.

(** C6. For a user and a role that both exist, the user not yet holding
    the role: [assign_role] succeeds and a second [assign_role] fails with
    the conflict error, leaving the user table as the first call left it;
    and [revoke_role] on a user who does not hold the role fails with the
    conflict error, leaving the state as it was. *)
Theorem assign_role_twice_conflict
    (s : BaseUserService) (user_id role_id_ : Ident) (w : World)
    (user : User) (role : Role)
    (Hrepo : role_repository s <> None)
    (Hmodel : user_model_has_roles s = true)
    (Huser : fst (get_user user_id w) = Return user)
    (Hrole : fst (get_role s role_id_ w) = Return role)
    (Hnot : existsb (Role_eqb role) (roles user) = false) :
  (exists user' w1,
      assign_role s user_id role_id_ w = (Return user', w1) /\
      roles user' = (roles user ++ [role])%list /\
      fst (assign_role s user_id role_id_ w1)
      = Raise (IntegrityError ("user already has role '" ++ role_name role ++ "'")) /\
      users (snd (assign_role s user_id role_id_ w1)) = users w1) /\
  revoke_role s user_id role_id_ w
  = (Raise (IntegrityError ("user does not have role '" ++ role_name role ++ "'")), w).
Proof.
  destruct (get_user_found _ _ _ Huser) as [Hfind Hid].
  pose proof (get_user_run _ _ _ Huser) as Hu.
  pose proof (get_role_run _ _ _ _ Hrole) as Hr.
  split.
  - set (user' := set_roles (roles user ++ [role]) user).
    set (w1 := mkWorld (replace_user user' (users w)) (role_table w) (pk_source w)
                       (next_pk w) (now w) (entropy w) (draws w) (outbox w)
                       (signed_tokens w)).
    exists user', w1.
    assert (Hfirst : assign_role s user_id role_id_ w = (Return user', w1)).
    { unfold assign_role. destruct (role_repository s) as [repo|]; [|congruence].
      unfold bind. rewrite Hu, Hr, Hmodel. simpl. rewrite Hnot.
      reflexivity. }
    assert (Hu1 : get_user user_id w1 = (Return user', w1)).
    { unfold get_user, UserRepository.get. simpl. subst user_id.
      rewrite (find_replace_user user user' (users w) eq_refl Hfind). reflexivity. }
    assert (Hr1 : get_role s role_id_ w1 = (Return role, w1)).
    { revert Hr. unfold get_role, RoleRepository.get, raise.
      destruct (role_repository s); [|discriminate]. simpl.
      destruct (find _ (role_table w)); intro H; injection H as H; try discriminate.
      now rewrite H. }
    split; [exact Hfirst|]. split; [reflexivity|].
    unfold assign_role. destruct (role_repository s) as [repo|]; [|congruence].
    unfold bind. rewrite Hu1, Hr1, Hmodel. simpl.
    rewrite (existsb_app_last _ _ _ (Role_eqb_refl role)).
    split; reflexivity.
  - unfold revoke_role. destruct (role_repository s) as [repo|]; [|congruence].
    unfold bind. rewrite Hu, Hr, Hmodel. simpl. rewrite Hnot. reflexivity.
Qed.

(** ** Password reset *)

(** C7. As long as no two users share an e-mail up to casing,
    [initiate_password_reset] returns the same valueless result whether or
    not a user carries the e-mail.  When none does, it is the program that
    draws a [uuid4], issues a [reset_password] token for it and drops the
    token: exactly that token is signed, for the subject just drawn,
    nothing reaches the notifier and no row changes. *)
Theorem initiate_password_reset_silent
    (s : BaseUserService) (email_ : string) (w1 w2 : World)
    (H1 : (length (reset_candidates email_ w1) <= 1)%nat)
    (H2 : (length (reset_candidates email_ w2) <= 1)%nat) :
  fst (initiate_password_reset s email_ w1) = Return tt /\
  fst (initiate_password_reset s email_ w1) = fst (initiate_password_reset s email_ w2) /\
  (reset_candidates email_ w1 = [] ->
   initiate_password_reset s email_ w1
   = (i <- uuid4 ;; generate_token s i "reset_password" ;;; ret tt) w1 /\
   signed_tokens (snd (initiate_password_reset s email_ w1))
   = (signed_tokens w1
      ++ [issued_token s (IdUUID (entropy w1 (draws w1))) "reset_password" (now w1)])%list /\
   outbox (snd (initiate_password_reset s email_ w1)) = outbox w1 /\
   users (snd (initiate_password_reset s email_ w1)) = users w1 /\
   draws (snd (initiate_password_reset s email_ w1)) = S (draws w1)).
Proof.
  assert (Hret : forall w, (length (reset_candidates email_ w) <= 1)%nat ->
                           fst (initiate_password_reset s email_ w) = Return tt).
  { intros w H. unfold reset_candidates in H.
    unfold initiate_password_reset, UserRepository.get_one_or_none, generate_token,
      send_password_reset_token.
    unfold_svc.
    destruct (filter _ (users w)) as [|u [|u2 rest]]; simpl in *; [reflexivity..|lia]. }
  split; [now apply Hret|]. split; [now rewrite !Hret|].
  unfold reset_candidates. intro Hnone.
  unfold initiate_password_reset, UserRepository.get_one_or_none, generate_token.
  unfold_svc. rewrite Hnone. simpl. repeat split.
Qed.

(** ** OAuth2 *)

Lemma decode_jwt_run (state : jwt) (key : string) (audience : list string)
    (w : World) (r : Res dict) :
  fst (decode_jwt state key audience w) = r -> decode_jwt state key audience w = (r, w).
Proof.
  intros <-. unfold decode_jwt. unfold_svc.
  destruct state as [k p|raw]; simpl; [|reflexivity].
  destruct (negb (String.eqb k key)); [reflexivity|].
  destruct (match claim_exp p with Some e => e <=? now w | None => false end);
    [reflexivity|].
  destruct (dict_find (claim_fields p) "aud") as [a|]; [|reflexivity].
  destruct (existsb (String.eqb a) audience); reflexivity.
Qed.

(** C8. In the associate callback, a state token that decodes and whose
    [sub] claim differs from [str(associate_user.id)] ends the flow with
    an [HTTPException] of status 400 and leaves the whole state, the OAuth
    accounts included, as it was. *)
Theorem associate_callback_subject_mismatch
    (s : BaseUserService) (associate_user : User) (state : jwt) (state_secret : string)
    (oauth_account_dict : OAuthAccount) (w : World) (state_data : dict) (sub_ : string)
    (Hrepo : oauth2_repository s <> None)
    (Hdecode : fst (decode_jwt state state_secret [STATE_TOKEN_AUDIENCE] w)
               = Return state_data)
    (Hsub : dict_get state_data "sub" = Return sub_)
    (Hneq : sub_ <> str (id associate_user)) :
  exists e,
    _oauth2_associate_callback s associate_user state state_secret oauth_account_dict w
    = (Raise e, w) /\
    e = HTTPException HTTP_400_BAD_REQUEST "Bad Request" /\
    is_400_class e = true.
Proof.
  apply decode_jwt_run in Hdecode.
  exists (HTTPException HTTP_400_BAD_REQUEST "Bad Request").
  split; [|split; reflexivity].
  unfold _oauth2_associate_callback.
  destruct (oauth2_repository s); [|congruence].
  unfold_svc. rewrite Hdecode, Hsub.
  destruct (String.eqb_spec sub_ (str (id associate_user))); [contradiction|reflexivity].
Qed.

(** C10. In the associate callback, a state token that decodes but
    carries no [sub] claim makes the lookup [state_data["sub"]] raise
    [KeyError], which nothing handles: the outcome is that error and not
    the status-400 [HTTPException] of a subject mismatch.  A state token
    issued from empty [state_data] is such a token. *)
Theorem associate_callback_missing_subject
    (s : BaseUserService) (associate_user : User) (state : jwt) (state_secret : string)
    (oauth_account_dict : OAuthAccount) (w : World) (state_data : dict)
    (Hrepo : oauth2_repository s <> None)
    (Hdecode : fst (decode_jwt state state_secret [STATE_TOKEN_AUDIENCE] w)
               = Return state_data)
    (Hnosub : dict_find state_data "sub" = None) :
  _oauth2_associate_callback s associate_user state state_secret oauth_account_dict w
  = (Raise (KeyError "sub"), w) /\
  is_400_class (KeyError "sub") = false /\
  (forall lifetime_seconds w0,
      now w0 + lifetime_seconds > now w ->
      match generate_state_token [] state_secret lifetime_seconds w0 with
      | (Return issued, _) =>
          _oauth2_associate_callback s associate_user issued state_secret
                                     oauth_account_dict w
          = (Raise (KeyError "sub"), w)
      | (Raise _, _) => False
      end).
Proof.
  apply decode_jwt_run in Hdecode.
  assert (Hkey : forall d, dict_find d "sub" = None -> dict_get d "sub" = Raise (KeyError "sub")).
  { intro d. unfold dict_find. induction d as [|[k v] d IH]; simpl; [reflexivity|].
    destruct (String.eqb k "sub"); [discriminate | exact IH]. }
  split; [|split; [reflexivity|]].
  - unfold _oauth2_associate_callback.
    destruct (oauth2_repository s); [|congruence].
    unfold_svc. rewrite Hdecode, (Hkey _ Hnosub). reflexivity.
  - intros lifetime_seconds w0 Hlive.
    unfold generate_state_token, generate_jwt, _oauth2_associate_callback, decode_jwt.
    destruct (oauth2_repository s); [|congruence].
    destruct (lifetime_seconds =? 0); unfold_svc; simpl; rewrite String.eqb_refl; simpl;
      [reflexivity|].
    destruct (Z.leb_spec (now w0 + lifetime_seconds) (now w)); [lia|].
    reflexivity.
Qed.

Lemma flat_map_nil {A B} (f : A -> list B) (l : list A) :
  (forall x, In x l -> f x = []) -> flat_map f l = [].
Proof.
  induction l as [|a l IH]; simpl; intro H; [reflexivity|].
  rewrite (H a (or_introl eq_refl)). apply IH. intros x Hx. apply H. now right.
Qed.

Lemma get_by_oauth_account_missing (s : BaseUserService) (oauth account_id_ : string)
    (w : World) :
  oauth2_repository s <> None ->
  (forall u, In u (users w) ->
             filter (same_account oauth account_id_) (oauth_accounts u) = []) ->
  get_by_oauth_account s oauth account_id_ w = (Raise NotFoundError, w).
Proof.
  intros Hrepo Hnone. unfold get_by_oauth_account, OAuthRepository.get_one.
  destruct (oauth2_repository s); [|congruence].
  unfold_svc. rewrite flat_map_nil; [reflexivity|].
  intros u Hu. rewrite (Hnone u Hu). reflexivity.
Qed.

(** C1. What [_oauth2_callback] does when no OAuth account exists for
    (provider, account id) and one local user carries the provider's
    e-mail: it attaches the account to that user and returns the user, for
    either value of [associate_by_email].  With [associate_by_email] true
    this is the claimed behaviour, the user gaining exactly one account;
    with [associate_by_email] false the claimed status-400 refusal does not
    happen and the account is attached all the same. *)
Theorem oauth2_callback_links_matching_email
    (s : BaseUserService) (oauth_name_ account_id_ account_email_ : string)
    (associate_by_email is_verified_by_default : bool)
    (state : jwt) (state_secret : string) (oauth_account_dict : OAuthAccount)
    (w : World) (state_data : dict) (user : User)
    (Hrepo : oauth2_repository s <> None)
    (Hdecode : fst (decode_jwt state state_secret [STATE_TOKEN_AUDIENCE] w)
               = Return state_data)
    (Hnew : forall u, In u (users w) ->
              filter (same_account oauth_name_ account_id_) (oauth_accounts u) = [])
    (Hemail : filter (fun u => String.eqb (email u) account_email_) (users w) = [user]) :
  let user' := set_oauth_accounts (oauth_accounts user ++ [oauth_account_dict]) user in
  _oauth2_callback s oauth_name_ account_id_ account_email_ associate_by_email
                   is_verified_by_default state state_secret oauth_account_dict w
  = (Return user',
     mkWorld (replace_user user' (users w)) (role_table w) (pk_source w) (next_pk w)
             (now w) (entropy w) (draws w) (outbox w) (signed_tokens w)) /\
  length (oauth_accounts user') = S (length (oauth_accounts user)) /\
  In user' (replace_user user' (users w)).
Proof.
  intro user'.
  apply decode_jwt_run in Hdecode.
  pose proof (get_by_oauth_account_missing s oauth_name_ account_id_ w Hrepo Hnew) as Hmiss.
  split; [|split].
  - unfold _oauth2_callback.
    destruct (oauth2_repository s); [|congruence].
    unfold try_except, try_except_else, bind at 1.
    rewrite Hdecode. unfold ret at 1. rewrite Hmiss. simpl.
    unfold get_user_by_email, UserRepository.get_one_or_none,
      OAuthRepository.add_oauth_account, UserRepository._update.
    unfold_svc. rewrite Hemail. reflexivity.
  - unfold user'. simpl. rewrite length_app. simpl. lia.
  - apply (In_replace_user user); [reflexivity|].
    apply (filter_singleton_In _ _ _ Hemail).
Qed.

(** The other side of the same branch: with no user under the e-mail and
    [associate_by_email] false, the callback is refused with the detail
    "User already exists." and nothing is created. *)
Lemma oauth2_callback_unknown_email_refused
    (s : BaseUserService) (oauth_name_ account_id_ account_email_ : string)
    (is_verified_by_default : bool)
    (state : jwt) (state_secret : string) (oauth_account_dict : OAuthAccount)
    (w : World) (state_data : dict)
    (Hrepo : oauth2_repository s <> None)
    (Hdecode : fst (decode_jwt state state_secret [STATE_TOKEN_AUDIENCE] w)
               = Return state_data)
    (Hnew : forall u, In u (users w) ->
              filter (same_account oauth_name_ account_id_) (oauth_accounts u) = [])
    (Hemail : filter (fun u => String.eqb (email u) account_email_) (users w) = []) :
  _oauth2_callback s oauth_name_ account_id_ account_email_ false
                   is_verified_by_default state state_secret oauth_account_dict w
  = (Raise (HTTPException HTTP_400_BAD_REQUEST "User already exists."), w).
Proof.
  apply decode_jwt_run in Hdecode.
  pose proof (get_by_oauth_account_missing s oauth_name_ account_id_ w Hrepo Hnew) as Hmiss.
  unfold _oauth2_callback.
  destruct (oauth2_repository s); [|congruence].
  unfold try_except, try_except_else, bind at 1.
  rewrite Hdecode. unfold ret at 1. rewrite Hmiss. simpl.
  unfold get_user_by_email, UserRepository.get_one_or_none.
  unfold_svc. rewrite Hemail. reflexivity.
Qed.

(** ** Tokens: issue and decode *)

Lemma append_cons_nonempty (a b : string) (c : ascii) : (a ++ String c b)%string <> "".
Proof. destruct a; discriminate. Qed.

Lemma generate_token_run (s : BaseUserService) (user_id : Ident) (aud_ : string) (w : World) :
  generate_token s user_id aud_ w
  = (Return (issued_token s user_id aud_ (now w)),
     with_signed (issued_token s user_id aud_ (now w)) w).
Proof. reflexivity. Qed.

Lemma str_nonempty (i : Ident) : str i <> "".
Proof.
  destruct i as [n|z]; simpl.
  - unfold str_uuid. apply append_cons_nonempty.
  - destruct (Z.to_int z) as [d|d]; simpl; [destruct d; discriminate | discriminate].
Qed.

Lemma decode_issued_token (s : BaseUserService) (user_id : Ident) (aud_ : string)
    (t : Z) (w : World) :
  now w < t + 60 * 60 * 24 ->
  _decode_and_verify_token s (issued_token s user_id aud_ t) aud_ w
  = (Return (mkToken (t + 60 * 60 * 24) (str user_id) (Some aud_)), w).
Proof.
  intro Hlive. unfold issued_token, Token_encode.
  unfold _decode_and_verify_token, Token_decode. unfold_svc. simpl.
  rewrite String.eqb_refl. simpl.
  destruct (Z.leb_spec (t + 86400) (now w)) as [H|H]; [lia|].
  pose proof (str_nonempty user_id) as Hne.
  unfold dict_find. simpl.
  destruct (str user_id) as [|c r] eqn:E; [contradiction|].
  simpl. rewrite String.eqb_refl. reflexivity.
Qed.

(** X1. A token issued by [generate_token] for audience [a] is accepted by
    [_decode_and_verify_token] for context [a] at any time before its
    expiry, twenty-four hours after issue, and decodes to the subject
    [str(user_id)], the audience and that expiry. *)
Theorem issued_token_round_trip
    (s : BaseUserService) (user_id : Ident) (aud_ : string) (w w' : World)
    (Hlive : now w' < now w + 60 * 60 * 24) :
  match generate_token s user_id aud_ w with
  | (Return issued, _) =>
      _decode_and_verify_token s issued aud_ w'
      = (Return (mkToken (now w + 60 * 60 * 24) (str user_id) (Some aud_)), w')
  | (Raise _, _) => False
  end.
Proof.
  rewrite generate_token_run. now apply decode_issued_token.
Qed.

Lemma decode_and_verify_token_state
    (s : BaseUserService) (encoded_token : jwt) (context : string) (w : World) :
  snd (_decode_and_verify_token s encoded_token context w) = w.
Proof.
  unfold _decode_and_verify_token, Token_decode. unfold_svc.
  destruct encoded_token as [key payload|raw]; simpl; [|reflexivity].
  destruct (negb (String.eqb key (secret s))); simpl; [reflexivity|].
  destruct (claim_exp payload) as [e|]; simpl; [|reflexivity].
  destruct (e <=? now w); simpl; [reflexivity|].
  destruct (dict_find (claim_fields payload) "sub") as [[|c r]|]; simpl; try reflexivity.
  destruct (dict_find (claim_fields payload) "aud") as [a|]; simpl; [|reflexivity].
  destruct (negb (String.eqb a context)); reflexivity.
Qed.

(** X2. [_decode_and_verify_token] never changes the state and raises
    nothing but [InvalidTokenException]; when it returns, the token was
    signed with the service secret, its expiry is in the future, its
    subject is not empty and its audience is the expected context. *)
Theorem decode_and_verify_token_total
    (s : BaseUserService) (encoded_token : jwt) (context : string) (w : World) :
  snd (_decode_and_verify_token s encoded_token context w) = w /\
  (fst (_decode_and_verify_token s encoded_token context w) = Raise InvalidTokenException \/
   exists token payload,
     fst (_decode_and_verify_token s encoded_token context w) = Return token /\
     encoded_token = Signed (secret s) payload /\
     claim_exp payload = Some (exp token) /\
     now w < exp token /\
     dict_find (claim_fields payload) "sub" = Some (sub token) /\
     sub token <> "" /\
     aud token = Some context).
Proof.
  unfold _decode_and_verify_token, Token_decode. unfold_svc.
  destruct encoded_token as [key payload|raw]; simpl; [|split; [reflexivity|now left]].
  destruct (String.eqb_spec key (secret s)) as [->|Hk]; simpl;
    [|split; [reflexivity|now left]].
  destruct (claim_exp payload) as [e|] eqn:He; simpl; [|split; [reflexivity|now left]].
  destruct (Z.leb_spec e (now w)) as [Hle|Hlt]; simpl; [split; [reflexivity|now left]|].
  destruct (dict_find (claim_fields payload) "sub") as [[|c r]|] eqn:Hs; simpl;
    try (split; [reflexivity|now left]).
  destruct (dict_find (claim_fields payload) "aud") as [a|] eqn:Ha; simpl;
    [|split; [reflexivity|now left]].
  destruct (String.eqb_spec a context) as [->|Hne]; simpl;
    [|split; [reflexivity|now left]].
  split; [reflexivity|]. right.
  eexists; exists payload. repeat split; simpl; try eassumption; try reflexivity.
  discriminate.
Qed.

(** ** Verification and password reset: the accepting paths *)

Lemma verify_run (s : BaseUserService) (user_id : Ident) (t : Z) (w : World) (u : User) :
  id_round_trips user_id ->
  now w < t + 60 * 60 * 24 ->
  row user_id w = Some u ->
  verify s (issued_token s user_id "verify" t) w
  = (match post_verification_hook s (set_is_verified true u) with
     | Return _ => Return (set_is_verified true u)
     | Raise e => Raise e
     end,
     with_users (replace_user (set_is_verified true u) (users w)) w).
Proof.
  intros Hid Hlive Hrow. unfold row in Hrow. unfold verify, bind.
  rewrite (decode_issued_token s user_id "verify" t w Hlive).
  simpl sub. rewrite (Hid w).
  unfold UserRepository.update, UserRepository.get. unfold_svc.
  rewrite Hrow. simpl.
  destruct (post_verification_hook s _); reflexivity.
Qed.

Lemma reset_password_run (s : BaseUserService) (user_id : Ident) (t : Z) (w : World)
    (u : User) (password : string) :
  id_round_trips user_id ->
  now w < t + 60 * 60 * 24 ->
  row user_id w = Some u ->
  let u' := set_password_hash
              (pm_hash (password_manager s) (entropy w (draws w)) password) u in
  reset_password s (issued_token s user_id "reset_password" t) password w
  = (Return tt, spend_draw (with_users (replace_user u' (users w)) w)).
Proof.
  intros Hid Hlive Hrow. unfold row in Hrow. unfold reset_password, bind.
  rewrite (decode_issued_token s user_id "reset_password" t w Hlive).
  simpl sub. rewrite (Hid w).
  unfold hash, UserRepository.update, UserRepository.get. unfold_svc. simpl.
  rewrite Hrow. reflexivity.
Qed.

Lemma row_found (i : Ident) (w : World) (u : User) :
  row i w = Some u -> In u (users w) /\ id u = i.
Proof.
  unfold row. intro H. apply find_some in H. destruct H as [Hin Heq].
  split; [exact Hin | now apply Ident_eqb_eq].
Qed.

Lemma row_replace_user (i : Ident) (w : World) (u u' : User) :
  id u' = id u ->
  row i w = Some u ->
  row i (with_users (replace_user u' (users w)) w) = Some u'.
Proof.
  intros Hid Hrow. destruct (row_found _ _ _ Hrow) as [_ <-].
  unfold row in *. simpl. now apply find_replace_user.
Qed.

Lemma In_replace_user_other (x u' : User) (us : list User) :
  In x us -> id x <> id u' -> In x (replace_user u' us).
Proof.
  intros Hx Hne. unfold replace_user. apply in_map_iff. exists x.
  split; [|exact Hx].
  destruct (Ident_eqb (id x) (id u')) eqn:E; [|reflexivity].
  apply Ident_eqb_eq in E. contradiction.
Qed.

(** X3. [verify] with the token [generate_token] issued for an existing
    user, presented before its expiry, returns that user with
    [is_verified] set and stores it: the row differs from the old one in
    that field only, and the rows of other ids are untouched. *)
Theorem verify_marks_user_verified
    (s : BaseUserService) (user_id : Ident) (w0 w : World) (encoded_token : jwt) (u : User)
    (Hissued : fst (generate_token s user_id "verify" w0) = Return encoded_token)
    (Hid : id_round_trips user_id)
    (Hlive : now w < now w0 + 60 * 60 * 24)
    (Hrow : row user_id w = Some u)
    (Hhook : post_verification_hook s (set_is_verified true u) = Return tt) :
  let u' := set_is_verified true u in
  verify s encoded_token w = (Return u', with_users (replace_user u' (users w)) w) /\
  row user_id (snd (verify s encoded_token w)) = Some u' /\
  is_verified u' = true /\
  (id u', email u', password_hash u', is_active u', roles u', oauth_accounts u', columns u')
  = (id u, email u, password_hash u, is_active u, roles u, oauth_accounts u, columns u) /\
  (forall x, In x (users w) -> id x <> user_id ->
             In x (users (snd (verify s encoded_token w)))).
Proof.
  intro u'. rewrite generate_token_run in Hissued. simpl in Hissued.
  injection Hissued as <-.
  pose proof (verify_run s user_id (now w0) w u Hid Hlive Hrow) as Hrun.
  rewrite Hhook in Hrun. rewrite Hrun. simpl snd.
  split; [reflexivity|]. split; [now apply (row_replace_user user_id w u)|].
  split; [reflexivity|]. split; [reflexivity|].
  intros x Hx Hne. simpl. apply In_replace_user_other; [exact Hx|].
  destruct (row_found _ _ _ Hrow) as [_ Hu]. simpl. now rewrite Hu.
Qed.

Lemma find_app_absent {A} (p : A -> bool) (l l' : list A) :
  find p l = None -> find p (l ++ l') = find p l'.
Proof.
  induction l as [|a l IH]; simpl; [reflexivity|].
  destruct (p a); [discriminate | exact IH].
Qed.

(** X4. The registration scenario.  With verification required, a first
    registration stores the user unverified and hands the notifier one
    verification token for it; [verify] with that token then returns the
    user verified and the stored row is the verified one. *)
Theorem register_then_verify
    (s : BaseUserService) (data : UserCreate) (w : World) (x : string)
    (Hreq : require_verification_on_registration s = true)
    (Hpre : pre_registration_hook s data = Return tt)
    (Hpost : forall u, post_registration_hook s u = Return tt)
    (Hver : forall u, post_verification_hook s u = Return tt)
    (Hident : create_identifier s data = Some x)
    (Hfirst : forall u, In u (users w) ->
                        lower_column_is (user_auth_identifier s) (lower x) u = false)
    (Hfresh : forall u, In u (users w) -> id u <> pk_source w (next_pk w))
    (Hid : id_round_trips (pk_source w (next_pk w))) :
  exists user token w1 w2,
    register s data w = (Return user, w1) /\
    is_verified user = false /\
    outbox w1 = (outbox w ++ [VerificationToken (id user) token])%list /\
    verify s token w1 = (Return (set_is_verified true user), w2) /\
    row (id user) w2 = Some (set_is_verified true user).
Proof.
  apply existsb_false_iff in Hfirst. unfold create_identifier in Hident.
  set (pk := pk_source w (next_pk w)) in *.
  set (user := mkUser pk (create_email data)
                 (pm_hash (password_manager s) (entropy w (draws w)) (create_password data))
                 true false [] [] (create_columns data)).
  set (token := issued_token s pk "verify" (now w)).
  set (w1 := mkWorld (users w ++ [user]) (role_table w) (pk_source w) (S (next_pk w))
                     (now w) (entropy w) (S (draws w))
                     (outbox w ++ [VerificationToken pk token])
                     (signed_tokens w ++ [token])).
  assert (Hreg : register s data w = (Return user, w1)).
  { unfold register, hash, add_user, UserRepository.exists_, UserRepository.add, getattr,
      initiate_verification, generate_token, send_verification_token.
    unfold_svc. rewrite Hpre, Hreq. simpl. rewrite Hident. simpl. rewrite Hfirst.
    simpl. rewrite Hpost. reflexivity. }
  assert (Hrow : row pk w1 = Some user).
  { unfold row, w1. simpl.
    rewrite (find_app_absent _ _ _ (find_absent pk (users w) Hfresh)). simpl.
    now rewrite Ident_eqb_refl. }
  assert (Hlive : now w1 < now w + 60 * 60 * 24) by (simpl; lia).
  pose proof (verify_run s pk (now w) w1 user Hid Hlive Hrow) as Hrun.
  rewrite Hver in Hrun.
  exists user, token, w1, (with_users (replace_user (set_is_verified true user) (users w1)) w1).
  split; [exact Hreg|]. split; [reflexivity|]. split; [reflexivity|].
  split; [exact Hrun|].
  now apply (row_replace_user pk w1 user).
Qed.

(** X5. [reset_password] with the token [generate_token] issued for an
    existing user stores the hash of the new password on that user's row,
    changes no other field and no row of another id, and returns nothing. *)
Theorem reset_password_stores_hash
    (s : BaseUserService) (user_id : Ident) (w0 w : World) (encoded_token : jwt)
    (u : User) (password : string)
    (Hissued : fst (generate_token s user_id "reset_password" w0) = Return encoded_token)
    (Hid : id_round_trips user_id)
    (Hlive : now w < now w0 + 60 * 60 * 24)
    (Hrow : row user_id w = Some u) :
  let h := pm_hash (password_manager s) (entropy w (draws w)) password in
  let w' := snd (reset_password s encoded_token password w) in
  fst (reset_password s encoded_token password w) = Return tt /\
  row user_id w' = Some (set_password_hash h u) /\
  (forall x, In x (users w) -> id x <> user_id -> In x (users w')) /\
  outbox w' = outbox w /\ role_table w' = role_table w.
Proof.
  intros h w'. rewrite generate_token_run in Hissued. simpl in Hissued.
  injection Hissued as <-.
  pose proof (reset_password_run s user_id (now w0) w u password Hid Hlive Hrow) as Hrun.
  subst w'. rewrite Hrun. simpl fst. simpl snd.
  split; [reflexivity|].
  split; [exact (row_replace_user user_id w u (set_password_hash h u) eq_refl Hrow)|].
  split; [|split; reflexivity].
  intros x Hx Hne. simpl. apply In_replace_user_other; [exact Hx|].
  destruct (row_found _ _ _ Hrow) as [_ Hu]. simpl. now rewrite Hu.
Qed.

(** X6. A reset token is not consumed by its use: presented a second time
    before its expiry, [reset_password] accepts it again and the second
    password replaces the first. *)
Theorem reset_token_is_reusable
    (s : BaseUserService) (user_id : Ident) (w0 w : World) (encoded_token : jwt)
    (u : User) (password1 password2 : string)
    (Hissued : fst (generate_token s user_id "reset_password" w0) = Return encoded_token)
    (Hid : id_round_trips user_id)
    (Hlive : now w < now w0 + 60 * 60 * 24)
    (Hrow : row user_id w = Some u) :
  exists w1 w2,
    reset_password s encoded_token password1 w = (Return tt, w1) /\
    reset_password s encoded_token password2 w1 = (Return tt, w2) /\
    row user_id w2
    = Some (set_password_hash
              (pm_hash (password_manager s) (entropy w (S (draws w))) password2) u).
Proof.
  rewrite generate_token_run in Hissued. simpl in Hissued. injection Hissued as <-.
  pose proof (reset_password_run s user_id (now w0) w u password1 Hid Hlive Hrow) as H1.
  simpl in H1.
  set (u1 := set_password_hash
               (pm_hash (password_manager s) (entropy w (draws w)) password1) u) in *.
  set (w1 := spend_draw (with_users (replace_user u1 (users w)) w)) in *.
  assert (Hrow1 : row user_id w1 = Some u1).
  { exact (row_replace_user user_id w u u1 eq_refl Hrow). }
  assert (Hlive1 : now w1 < now w0 + 60 * 60 * 24) by exact Hlive.
  pose proof (reset_password_run s user_id (now w0) w1 u1 password2 Hid Hlive1 Hrow1) as H2.
  simpl in H2.
  eexists; eexists. split; [exact H1|]. split; [exact H2|].
  exact (row_replace_user user_id w1 u1
           (set_password_hash
              (pm_hash (password_manager s) (entropy w (S (draws w))) password2) u1)
           eq_refl Hrow1).
Qed.

(** X7. The forgotten-password flow.  When exactly one user carries the
    e-mail (in any casing), [initiate_password_reset] changes no row and
    hands the notifier one token addressed to that user; [reset_password]
    with this token stores the hash of the new password on that user's
    row. *)
Theorem forgot_password_flow
    (s : BaseUserService) (email_ : string) (w : World) (u : User) (password : string)
    (Hfound : reset_candidates email_ w = [u])
    (Hrow : row (id u) w = Some u)
    (Hid : id_round_trips (id u)) :
  exists token w1 w2,
    initiate_password_reset s email_ w = (Return tt, w1) /\
    users w1 = users w /\
    outbox w1 = (outbox w ++ [PasswordResetToken (id u) token])%list /\
    reset_password s token password w1 = (Return tt, w2) /\
    row (id u) w2
    = Some (set_password_hash
              (pm_hash (password_manager s) (entropy w (draws w)) password) u).
Proof.
  unfold reset_candidates in Hfound.
  set (token := issued_token s (id u) "reset_password" (now w)).
  set (w1 := with_message (PasswordResetToken (id u) token) (with_signed token w)).
  assert (Hinit : initiate_password_reset s email_ w = (Return tt, w1)).
  { unfold initiate_password_reset, UserRepository.get_one_or_none, generate_token,
      send_password_reset_token.
    unfold_svc. rewrite Hfound. reflexivity. }
  assert (Hrow1 : row (id u) w1 = Some u) by exact Hrow.
  assert (Hlive : now w1 < now w + 60 * 60 * 24) by (simpl; lia).
  pose proof (reset_password_run s (id u) (now w) w1 u password Hid Hlive Hrow1) as Hrun.
  simpl in Hrun.
  eexists; eexists; eexists.
  split; [exact Hinit|]. split; [reflexivity|]. split; [reflexivity|].
  split; [exact Hrun|].
  exact (row_replace_user (id u) w1 u
           (set_password_hash
              (pm_hash (password_manager s) (entropy w (draws w)) password) u)
           eq_refl Hrow1).
Qed.

(** ** Roles: failure and inverse *)

Lemma Ident_eqb_sym (a b : Ident) : Ident_eqb a b = Ident_eqb b a.
Proof.
  destruct a, b; simpl; try reflexivity; [apply N.eqb_sym | apply Z.eqb_sym].
Qed.

Lemma remove_first_held (r : Role) (l : list Role) :
  existsb (Role_eqb r) l = true -> exists l', remove_first r l = Some l'.
Proof.
  induction l as [|x l IH]; simpl; [discriminate|].
  unfold Role_eqb at 1 3. rewrite (Ident_eqb_sym (role_id x)).
  destruct (Ident_eqb (role_id r) (role_id x)); simpl.
  - intros _. now exists l.
  - intro H. destruct (IH H) as [l' ->]. now exists (x :: l').
Qed.

Lemma remove_first_appended (r : Role) (l : list Role) :
  existsb (Role_eqb r) l = false -> remove_first r (l ++ [r]) = Some l.
Proof.
  induction l as [|x l IH]; simpl.
  - intros _. now rewrite Role_eqb_refl.
  - unfold Role_eqb at 1 3. rewrite (Ident_eqb_sym (role_id x)).
    destruct (Ident_eqb (role_id r) (role_id x)); simpl; [discriminate|].
    intro H. now rewrite (IH H).
Qed.

(** X8. [assign_role] and [revoke_role] fail atomically: whenever either
    raises, the state is exactly as before, and the error is the missing
    role configuration, a missing user or role, or the conflict error.  In
    particular [revoke_role] never fails inside [user.roles.remove]. *)
Theorem role_change_failure_is_atomic
    (s : BaseUserService) (user_id role_id_ : Ident) (w : World) (e : exn) :
  (fst (assign_role s user_id role_id_ w) = Raise e ->
   snd (assign_role s user_id role_id_ w) = w /\
   (e = roles_not_configured \/ e = NotFoundError \/ exists d, e = IntegrityError d)) /\
  (fst (revoke_role s user_id role_id_ w) = Raise e ->
   snd (revoke_role s user_id role_id_ w) = w /\
   (e = roles_not_configured \/ e = NotFoundError \/ exists d, e = IntegrityError d)).
Proof.
  split.
  - unfold assign_role, get_user, get_role, UserRepository.get, RoleRepository.get,
      RoleRepository.assign_role, UserRepository._update.
    unfold_svc.
    destruct (role_repository s) as [repo|]; simpl;
      [|intro H; injection H as <-; split; [reflexivity | now left]].
    destruct (find _ (users w)) as [u|]; simpl;
      [|intro H; injection H as <-; split; [reflexivity | right; now left]].
    destruct (find _ (role_table w)) as [r|]; simpl;
      [|intro H; injection H as <-; split; [reflexivity | right; now left]].
    destruct (user_model_has_roles s); simpl;
      [|intro H; injection H as <-; split; [reflexivity | now left]].
    destruct (existsb (Role_eqb r) (roles u)); simpl;
      [intro H; injection H as <-; split; [reflexivity | right; right; eauto]
      | discriminate].
  - unfold revoke_role, get_user, get_role, UserRepository.get, RoleRepository.get,
      RoleRepository.revoke_role, UserRepository._update.
    unfold_svc.
    destruct (role_repository s) as [repo|]; simpl;
      [|intro H; injection H as <-; split; [reflexivity | now left]].
    destruct (find _ (users w)) as [u|]; simpl;
      [|intro H; injection H as <-; split; [reflexivity | right; now left]].
    destruct (find _ (role_table w)) as [r|]; simpl;
      [|intro H; injection H as <-; split; [reflexivity | right; now left]].
    destruct (user_model_has_roles s); simpl;
      [|intro H; injection H as <-; split; [reflexivity | now left]].
    destruct (existsb (Role_eqb r) (roles u)) eqn:Hheld; simpl;
      [|intro H; injection H as <-; split; [reflexivity | right; right; eauto]].
    destruct (remove_first_held r (roles u) Hheld) as [l' ->]. discriminate.
Qed.

Lemma NoDup_map_injective {A B} (f : A -> B) (l : list A) (x y : A) :
  NoDup (map f l) -> In x l -> In y l -> f x = f y -> x = y.
Proof.
  induction l as [|a l IH]; simpl; [intros _ []|].
  intros Hnd Hx Hy Hf. inversion Hnd as [|? ? Hnotin Hnd']; subst.
  destruct Hx as [<-|Hx], Hy as [<-|Hy]; auto.
  - exfalso. apply Hnotin. rewrite Hf. now apply in_map.
  - exfalso. apply Hnotin. rewrite <- Hf. now apply in_map.
Qed.

Lemma replace_user_back (u u' : User) (us : list User) :
  NoDup (map id us) -> In u us -> id u' = id u ->
  replace_user u (replace_user u' us) = us.
Proof.
  intros Hnd Hin Hid. unfold replace_user. rewrite map_map.
  rewrite <- (map_id us) at 2. apply map_ext_in. intros x Hx.
  rewrite Hid.
  destruct (Ident_eqb (id x) (id u)) eqn:E.
  - rewrite Hid, Ident_eqb_refl. apply Ident_eqb_eq in E.
    symmetry. exact (NoDup_map_injective id us x u Hnd Hx Hin E).
  - now rewrite E.
Qed.

(** X9. [revoke_role] undoes [assign_role]: for a user that does not hold
    the role, in a table whose primary keys are distinct, assigning the
    role and then revoking it returns the user as it was and restores the
    whole state. *)
Theorem assign_then_revoke_restores
    (s : BaseUserService) (user_id role_id_ : Ident) (w : World)
    (user : User) (role : Role)
    (Hrepo : role_repository s <> None)
    (Hmodel : user_model_has_roles s = true)
    (Huser : fst (get_user user_id w) = Return user)
    (Hrole : fst (get_role s role_id_ w) = Return role)
    (Hnot : existsb (Role_eqb role) (roles user) = false)
    (Hkeys : NoDup (map id (users w))) :
  exists user' w1,
    assign_role s user_id role_id_ w = (Return user', w1) /\
    existsb (Role_eqb role) (roles user') = true /\
    revoke_role s user_id role_id_ w1 = (Return user, w).
Proof.
  destruct (get_user_found _ _ _ Huser) as [Hfind Hid].
  pose proof (get_user_run _ _ _ Huser) as Hu.
  pose proof (get_role_run _ _ _ _ Hrole) as Hr.
  set (user' := set_roles (roles user ++ [role]) user).
  set (w1 := with_users (replace_user user' (users w)) w).
  exists user', w1.
  assert (Hu1 : get_user user_id w1 = (Return user', w1)).
  { unfold get_user, UserRepository.get. simpl. subst user_id.
    rewrite (find_replace_user user user' (users w) eq_refl Hfind). reflexivity. }
  assert (Hr1 : get_role s role_id_ w1 = (Return role, w1)).
  { revert Hr. unfold get_role, RoleRepository.get, raise.
    destruct (role_repository s); [|discriminate]. simpl.
    destruct (find _ (role_table w)); intro H; injection H as H; try discriminate.
    now rewrite H. }
  assert (Hheld : existsb (Role_eqb role) (roles user') = true).
  { simpl. apply existsb_app_last. apply Role_eqb_refl. }
  split; [|split; [exact Hheld|]].
  - unfold assign_role. destruct (role_repository s); [|congruence].
    unfold bind. rewrite Hu, Hr, Hmodel. simpl. rewrite Hnot. reflexivity.
  - unfold revoke_role. destruct (role_repository s); [|congruence].
    unfold bind. rewrite Hu1, Hr1, Hmodel. simpl negb.
    rewrite Hheld. simpl negb. cbv iota.
    unfold RoleRepository.revoke_role.
    change (roles user') with (roles user ++ [role])%list.
    rewrite (remove_first_appended role (roles user) Hnot).
    unfold UserRepository._update. unfold_svc. simpl.
    assert (Hback : set_roles (roles user) user' = user) by (destruct user; reflexivity).
    rewrite Hback.
    rewrite (replace_user_back user user' (users w) Hkeys
               (proj1 (find_some _ _ Hfind)) eq_refl).
    destruct w; reflexivity.
Qed.

(** ** OAuth2: state tokens *)

Lemma dict_get_set_same (d : dict) (k v : string) : dict_get (dict_set d k v) k = Return v.
Proof.
  induction d as [|[k' v'] d IH]; simpl.
  - now rewrite String.eqb_refl.
  - destruct (String.eqb k' k) eqn:E; simpl.
    + now rewrite String.eqb_refl.
    + now rewrite E.
Qed.

Lemma dict_get_set_other (d : dict) (k k' v : string) :
  k' <> k -> dict_get (dict_set d k v) k' = dict_get d k'.
Proof.
  intro Hne. induction d as [|[k0 v0] d IH]; simpl.
  - destruct (String.eqb_spec k k'); [congruence | reflexivity].
  - destruct (String.eqb_spec k0 k) as [->|Hk]; simpl.
    + destruct (String.eqb_spec k k'); [congruence | reflexivity].
    + destruct (String.eqb k0 k'); [reflexivity | exact IH].
Qed.

Lemma decode_state_token (data : dict) (secret_ : string) (t : Z) (w : World) :
  now w < t ->
  decode_jwt (Signed secret_ (mkClaims (Some t) (dict_set data "aud" STATE_TOKEN_AUDIENCE)))
             secret_ [STATE_TOKEN_AUDIENCE] w
  = (Return (dict_set data "aud" STATE_TOKEN_AUDIENCE), w).
Proof.
  intro Hlive. unfold decode_jwt. unfold_svc. simpl.
  rewrite String.eqb_refl. simpl.
  destruct (Z.leb_spec t (now w)); [lia|].
  unfold dict_find. rewrite dict_get_set_same. simpl.
  reflexivity.
Qed.

Lemma decode_state_token_unbounded (data : dict) (secret_ : string) (w : World) :
  decode_jwt (Signed secret_ (mkClaims None (dict_set data "aud" STATE_TOKEN_AUDIENCE)))
             secret_ [STATE_TOKEN_AUDIENCE] w
  = (Return (dict_set data "aud" STATE_TOKEN_AUDIENCE), w).
Proof.
  unfold decode_jwt. unfold_svc. simpl.
  rewrite String.eqb_refl. simpl.
  unfold dict_find. rewrite dict_get_set_same. simpl.
  reflexivity.
Qed.

(** X11. The associate flow closes: a state token issued for
    [{"sub": str(user.id)}] and presented before its lifetime has run out
    makes [_oauth2_associate_callback] for that user attach the account:
    the user returned and stored has exactly one account more, the new one
    last, and this whether or not the provider account is linked already. *)
Theorem associate_with_own_state_links
    (s : BaseUserService) (associate_user : User) (state_secret : string)
    (lifetime_seconds : Z) (oauth_account_dict : OAuthAccount) (w0 w : World)
    (Hrepo : oauth2_repository s <> None)
    (Hlive : now w < now w0 + lifetime_seconds) :
  let user' := set_oauth_accounts (oauth_accounts associate_user ++ [oauth_account_dict])
                                  associate_user in
  match generate_state_token [("sub", str (id associate_user))] state_secret
                             lifetime_seconds w0 with
  | (Return state, _) =>
      _oauth2_associate_callback s associate_user state state_secret oauth_account_dict w
      = (Return user', with_users (replace_user user' (users w)) w)
  | (Raise _, _) => False
  end /\
  length (oauth_accounts user') = S (length (oauth_accounts associate_user)).
Proof.
  intro user'. split.
  - unfold generate_state_token, generate_jwt.
    destruct (lifetime_seconds =? 0); unfold_svc; simpl;
      (unfold _oauth2_associate_callback; destruct (oauth2_repository s); [|congruence]);
      unfold try_except, try_except_else, bind;
      change [("sub", str (id associate_user)); ("aud", STATE_TOKEN_AUDIENCE)]
        with (dict_set [("sub", str (id associate_user))] "aud" STATE_TOKEN_AUDIENCE);
      [rewrite (decode_state_token_unbounded _ state_secret w)
      |rewrite (decode_state_token _ state_secret _ w Hlive)];
      unfold ret at 1; simpl; rewrite String.eqb_refl; reflexivity.
  - unfold user'. simpl. rewrite length_app. simpl. lia.
Qed.

(** ** OAuth2: the callback's other branches *)

Lemma replace_user_twice (u1 u2 : User) (us : list User) :
  id u1 = id u2 -> replace_user u2 (replace_user u1 us) = replace_user u2 us.
Proof.
  intro Hid. unfold replace_user. rewrite map_map. apply map_ext. intro x.
  rewrite Hid. destruct (Ident_eqb (id x) (id u2)) eqn:E.
  - now rewrite Hid, Ident_eqb_refl.
  - now rewrite E.
Qed.

Lemma set_oauth_accounts_same (u : User) : set_oauth_accounts (oauth_accounts u) u = u.
Proof. destruct u; reflexivity. Qed.

Lemma refresh_from_no_match (n a : string) (data : OAuthAccount) (k : nat)
    (pending accounts : list OAuthAccount) :
  existsb (same_account n a) pending = false ->
  refresh_from n a data k pending accounts = accounts.
Proof.
  revert k. induction pending as [|e rest IH]; simpl; intros k H; [reflexivity|].
  apply orb_false_iff in H. destruct H as [He Hr]. rewrite He. now apply IH.
Qed.

Lemma update_matching_run (n a : string) (data : OAuthAccount)
    (pending : list OAuthAccount) :
  forall (k : nat) (user : User) (w : World),
    let final := set_oauth_accounts
                   (refresh_from n a data k pending (oauth_accounts user)) user in
    update_matching n a data k pending user w
    = (Return final,
       if existsb (same_account n a) pending
       then with_users (replace_user final (users w)) w
       else w).
Proof.
  induction pending as [|e rest IH]; intros k user w; simpl.
  - unfold ret. now rewrite set_oauth_accounts_same.
  - unfold bind.
    replace (String.eqb (account_id e) a && String.eqb (oauth_name e) n)
      with (same_account n a e) by (unfold same_account; apply andb_comm).
    destruct (same_account n a e) eqn:He; simpl.
    + unfold OAuthRepository.update_oauth_account, UserRepository._update.
      unfold_svc. simpl.
      set (u1 := set_oauth_accounts (replace_nth k data (oauth_accounts user)) user).
      set (w1 := mkWorld (replace_user u1 (users w)) _ _ _ _ _ _ _ _).
      rewrite (IH (S k) u1 w1). simpl.
      destruct (existsb (same_account n a) rest) eqn:Hr.
      * unfold with_users, w1. simpl.
        rewrite replace_user_twice; reflexivity.
      * rewrite (refresh_from_no_match n a data (S k) rest _ Hr). reflexivity.
    + exact (IH (S k) user w).
Qed.

Lemma replace_nth_middle {A} (pre : list A) (e x : A) (rest : list A) :
  replace_nth (length pre) x (pre ++ e :: rest) = (pre ++ x :: rest)%list.
Proof.
  induction pre as [|p pre IH]; simpl; [reflexivity|]. now rewrite IH.
Qed.

Lemma refresh_from_map (n a : string) (data : OAuthAccount) (pending : list OAuthAccount) :
  forall pre : list OAuthAccount,
    refresh_from n a data (length pre) pending (pre ++ pending)
    = (pre ++ refreshed_accounts n a data pending)%list.
Proof.
  induction pending as [|e rest IH]; intro pre; simpl; [reflexivity|].
  destruct (same_account n a e).
  - rewrite replace_nth_middle.
    replace (pre ++ data :: rest)%list with ((pre ++ [data]) ++ rest)%list
      by (rewrite <- app_assoc; reflexivity).
    replace (S (length pre)) with (length (pre ++ [data]))
      by (rewrite length_app; simpl; lia).
    rewrite IH. rewrite <- app_assoc. reflexivity.
  - replace (pre ++ e :: rest)%list with ((pre ++ [e]) ++ rest)%list
      by (rewrite <- app_assoc; reflexivity).
    replace (S (length pre)) with (length (pre ++ [e]))
      by (rewrite length_app; simpl; lia).
    rewrite IH. rewrite <- app_assoc. reflexivity.
Qed.

Lemma get_by_oauth_account_found (s : BaseUserService) (n a : string) (w : World)
    (owner user : User) :
  oauth2_repository s <> None ->
  account_owners n a w = [owner] ->
  row (id owner) w = Some user ->
  get_by_oauth_account s n a w = (Return user, w).
Proof.
  intros Hrepo Hown Hrow. unfold account_owners in Hown. unfold row in Hrow.
  unfold get_by_oauth_account, OAuthRepository.get_one, get_user, UserRepository.get.
  destruct (oauth2_repository s); [|congruence].
  unfold_svc. rewrite Hown. simpl. rewrite Hrow. reflexivity.
Qed.

(** X12. A returning user.  When the provider identity is linked to one
    user, [_oauth2_callback] creates nothing and attaches nothing: it
    returns that user with every account of the identity refreshed to the
    values just received, the others and their number as before, for
    either value of [associate_by_email]. *)
Theorem oauth2_callback_refreshes_existing_account
    (s : BaseUserService) (oauth_name_ account_id_ account_email_ : string)
    (associate_by_email is_verified_by_default : bool)
    (state : jwt) (state_secret : string) (oauth_account_dict : OAuthAccount)
    (w : World) (state_data : dict) (user : User)
    (Hrepo : oauth2_repository s <> None)
    (Hdecode : fst (decode_jwt state state_secret [STATE_TOKEN_AUDIENCE] w)
               = Return state_data)
    (Howner : account_owners oauth_name_ account_id_ w = [user])
    (Hrow : row (id user) w = Some user) :
  let user' := set_oauth_accounts
                 (refreshed_accounts oauth_name_ account_id_ oauth_account_dict
                                     (oauth_accounts user)) user in
  _oauth2_callback s oauth_name_ account_id_ account_email_ associate_by_email
                   is_verified_by_default state state_secret oauth_account_dict w
  = (Return user', with_users (replace_user user' (users w)) w) /\
  length (oauth_accounts user') = length (oauth_accounts user) /\
  length (users (with_users (replace_user user' (users w)) w)) = length (users w).
Proof.
  intro user'. apply decode_jwt_run in Hdecode.
  assert (Hheld : existsb (same_account oauth_name_ account_id_) (oauth_accounts user)
                  = true).
  { assert (Hin : In user (account_owners oauth_name_ account_id_ w))
      by (rewrite Howner; now left).
    unfold account_owners in Hin. apply in_flat_map in Hin.
    destruct Hin as (x & _ & Hx). apply in_map_iff in Hx.
    destruct Hx as (acc & -> & Hacc). apply filter_In in Hacc.
    apply existsb_exists. now exists acc. }
  split; [|split].
  - unfold _oauth2_callback. destruct (oauth2_repository s) eqn:Hr; [|congruence].
    unfold try_except, try_except_else, bind at 1.
    rewrite Hdecode. unfold ret at 1.
    rewrite (get_by_oauth_account_found s oauth_name_ account_id_ w user user);
      [|rewrite Hr; discriminate|exact Howner|exact Hrow].
    rewrite update_matching_run. rewrite Hheld.
    pose proof (refresh_from_map oauth_name_ account_id_ oauth_account_dict
                  (oauth_accounts user) []) as Hmap.
    simpl in Hmap. rewrite Hmap. reflexivity.
  - unfold user', refreshed_accounts. simpl. apply length_map.
  - simpl. unfold replace_user. apply length_map.
Qed.

Lemma replace_user_app_fresh (u u0 : User) (us : list User) :
  id u = id u0 ->
  (forall x, In x us -> id x <> id u0) ->
  replace_user u (us ++ [u0]) = (us ++ [u])%list.
Proof.
  intros Hid Hfresh. unfold replace_user. rewrite map_app. simpl.
  rewrite Hid, Ident_eqb_refl. f_equal.
  rewrite <- (map_id us) at 2. apply map_ext_in. intros x Hx.
  destruct (Ident_eqb (id x) (id u0)) eqn:E; [|reflexivity].
  apply Ident_eqb_eq in E. now apply Hfresh in Hx.
Qed.

Lemma oauth2_callback_create_run
    (s : BaseUserService) (oauth_name_ account_id_ account_email_ : string)
    (is_verified_by_default : bool)
    (state : jwt) (state_secret : string) (oauth_account_dict : OAuthAccount)
    (w : World) (state_data : dict) :
  oauth2_repository s <> None ->
  fst (decode_jwt state state_secret [STATE_TOKEN_AUDIENCE] w) = Return state_data ->
  (forall u, In u (users w) ->
             filter (same_account oauth_name_ account_id_) (oauth_accounts u) = []) ->
  filter (fun u => String.eqb (email u) account_email_) (users w) = [] ->
  (forall u, post_registration_hook s u = Return tt) ->
  (forall u, In u (users w) -> id u <> pk_source w (next_pk w)) ->
  let password := pm_generate (password_manager s) (entropy w (draws w)) in
  let h := pm_hash (password_manager s) (entropy w (S (draws w))) password in
  let user' := mkUser (pk_source w (next_pk w)) account_email_ h true
                      is_verified_by_default [] [oauth_account_dict] [] in
  _oauth2_callback s oauth_name_ account_id_ account_email_ true
                   is_verified_by_default state state_secret oauth_account_dict w
  = (Return user',
     mkWorld (users w ++ [user']) (role_table w) (pk_source w) (S (next_pk w)) (now w)
             (entropy w) (S (S (draws w))) (outbox w) (signed_tokens w)).
Proof.
  intros Hrepo Hdecode Hnew Hemail Hpost Hfresh password h user'.
  apply decode_jwt_run in Hdecode.
  pose proof (get_by_oauth_account_missing s oauth_name_ account_id_ w Hrepo Hnew) as Hmiss.
  unfold _oauth2_callback.
  destruct (oauth2_repository s); [|congruence].
  unfold try_except, try_except_else, bind at 1.
  rewrite Hdecode. unfold ret at 1. rewrite Hmiss. simpl.
  unfold get_user_by_email, UserRepository.get_one_or_none, generate, hash,
    UserRepository.add, OAuthRepository.add_oauth_account, UserRepository._update.
  unfold_svc. rewrite Hemail. simpl. rewrite Hpost.
  fold password. fold h.
  match goal with
  | |- (_, mkWorld (replace_user ?u (_ ++ [?u0])) _ _ _ _ _ _ _ _) = _ =>
      rewrite (replace_user_app_fresh u u0 (users w) eq_refl Hfresh)
  end.
  reflexivity.
Qed.

(** X13. First sign-in of a provider identity whose e-mail no user
    carries.  With [associate_by_email] true, [_oauth2_callback] creates
    one user, active, verified as [is_verified_by_default] says, with the
    hash of a generated password and the provider account as its only
    account, and leaves every existing row as it was.  With
    [associate_by_email] false it creates nothing and raises the
    status-400 error whose detail is "User already exists.". *)
Theorem oauth2_callback_unknown_email
    (s : BaseUserService) (oauth_name_ account_id_ account_email_ : string)
    (is_verified_by_default : bool)
    (state : jwt) (state_secret : string) (oauth_account_dict : OAuthAccount)
    (w : World) (state_data : dict)
    (Hrepo : oauth2_repository s <> None)
    (Hdecode : fst (decode_jwt state state_secret [STATE_TOKEN_AUDIENCE] w)
               = Return state_data)
    (Hnew : forall u, In u (users w) ->
              filter (same_account oauth_name_ account_id_) (oauth_accounts u) = [])
    (Hemail : filter (fun u => String.eqb (email u) account_email_) (users w) = [])
    (Hpost : forall u, post_registration_hook s u = Return tt)
    (Hfresh : forall u, In u (users w) -> id u <> pk_source w (next_pk w)) :
  (exists user' w',
      _oauth2_callback s oauth_name_ account_id_ account_email_ true
                       is_verified_by_default state state_secret oauth_account_dict w
      = (Return user', w') /\
      users w' = (users w ++ [user'])%list /\
      email user' = account_email_ /\
      is_active user' = true /\
      is_verified user' = is_verified_by_default /\
      oauth_accounts user' = [oauth_account_dict] /\
      roles user' = [] /\
      password_hash user'
      = pm_hash (password_manager s) (entropy w (S (draws w)))
                (pm_generate (password_manager s) (entropy w (draws w)))) /\
  _oauth2_callback s oauth_name_ account_id_ account_email_ false
                   is_verified_by_default state state_secret oauth_account_dict w
  = (Raise (HTTPException HTTP_400_BAD_REQUEST "User already exists."), w).
Proof.
  split.
  - eexists; eexists. split.
    + exact (oauth2_callback_create_run s oauth_name_ account_id_ account_email_
               is_verified_by_default state state_secret oauth_account_dict w state_data
               Hrepo Hdecode Hnew Hemail Hpost Hfresh).
    + repeat split.
  - exact (oauth2_callback_unknown_email_refused s oauth_name_ account_id_ account_email_
             is_verified_by_default state state_secret oauth_account_dict w state_data
             Hrepo Hdecode Hnew Hemail).
Qed.

Lemma filter_length_In {A} (p : A -> bool) (l : list A) (x : A) :
  In x l -> p x = true -> (1 <= length (filter p l))%nat.
Proof.
  intros Hin Hp. assert (H : In x (filter p l)) by (apply filter_In; now split).
  destruct (filter p l); [destruct H | simpl; lia].
Qed.

(** X14. The e-mail lookup of [_oauth2_callback] is exact, unlike the
    case-insensitive one of [add_user].  When a user carries the
    provider's e-mail in another casing only, the callback (with
    [associate_by_email] true) creates a second user: afterwards two rows
    carry the e-mail case-insensitively. *)
Theorem oauth2_callback_case_variant_email_duplicates
    (s : BaseUserService) (oauth_name_ account_id_ account_email_ : string)
    (is_verified_by_default : bool)
    (state : jwt) (state_secret : string) (oauth_account_dict : OAuthAccount)
    (w : World) (state_data : dict) (existing : User)
    (Hrepo : oauth2_repository s <> None)
    (Hdecode : fst (decode_jwt state state_secret [STATE_TOKEN_AUDIENCE] w)
               = Return state_data)
    (Hnew : forall u, In u (users w) ->
              filter (same_account oauth_name_ account_id_) (oauth_accounts u) = [])
    (Hexisting : In existing (users w))
    (Hcasing : lower (email existing) = lower account_email_)
    (Hexact : filter (fun u => String.eqb (email u) account_email_) (users w) = [])
    (Hpost : forall u, post_registration_hook s u = Return tt)
    (Hfresh : forall u, In u (users w) -> id u <> pk_source w (next_pk w)) :
  exists user' w',
    _oauth2_callback s oauth_name_ account_id_ account_email_ true
                     is_verified_by_default state state_secret oauth_account_dict w
    = (Return user', w') /\
    id user' <> id existing /\
    In existing (users w') /\ In user' (users w') /\
    (2 <= length (reset_candidates account_email_ w'))%nat.
Proof.
  eexists; eexists. split.
  - exact (oauth2_callback_create_run s oauth_name_ account_id_ account_email_
             is_verified_by_default state state_secret oauth_account_dict w state_data
             Hrepo Hdecode Hnew Hexact Hpost Hfresh).
  - simpl. split; [intro E; exact (Hfresh existing Hexisting (eq_sym E))|].
    split; [apply in_or_app; now left|].
    split; [apply in_or_app; right; now left|].
    unfold reset_candidates. simpl. rewrite filter_app, length_app. simpl.
    rewrite String.eqb_refl. simpl.
    pose proof (filter_length_In
                  (fun u => String.eqb (lower (email u)) (lower account_email_))
                  (users w) existing Hexisting) as Hone.
    cbv beta in Hone. rewrite Hcasing, String.eqb_refl in Hone.
    specialize (Hone eq_refl). lia.
Qed.

(** ** Registration keeps identifiers unique *)




(** ** Updating and deleting users *)

(** X16. [update_user] stores the hash, under a fresh salt, of the
    non-empty password a payload carries, and leaves the stored hash as it
    is when the payload carries none.  In both cases the row keeps its
    primary key, roles and OAuth accounts. *)
Theorem update_user_hashes_password
    (s : BaseUserService) (data : UserUpdate) (w : World) (u : User)
    (Hrow : row (update_id data) w = Some u) :
  (forall password,
      update_password_hash data = Some password -> password <> "" ->
      let h := pm_hash (password_manager s) (entropy w (draws w)) password in
      let u' := merge_update (with_password_hash (Some h) data) u in
      update_user s data w
      = (Return u', spend_draw (with_users (replace_user u' (users w)) w)) /\
      password_hash u' = h /\
      (id u', roles u', oauth_accounts u') = (id u, roles u, oauth_accounts u)) /\
  (update_password_hash data = None ->
   let u' := merge_update data u in
   update_user s data w = (Return u', with_users (replace_user u' (users w)) w) /\
   password_hash u' = password_hash u /\
   (id u', roles u', oauth_accounts u') = (id u, roles u, oauth_accounts u)).
Proof.
  unfold row in Hrow. split.
  - intros password Hpw Hne h u'.
    split; [|split; reflexivity].
    unfold update_user, hash, UserRepository.update, UserRepository.get.
    unfold_svc. rewrite Hpw.
    destruct (String.eqb_spec password ""); [contradiction|].
    simpl. rewrite Hrow. reflexivity.
  - intros Hnone u'.
    split; [|split; [unfold u', merge_update; simpl; now rewrite Hnone | reflexivity]].
    unfold update_user, UserRepository.update, UserRepository.get.
    unfold_svc. rewrite Hnone. simpl. rewrite Hrow. reflexivity.
Qed.

Lemma find_filter_out (i : Ident) (us : list User) :
  find (fun u => Ident_eqb (id u) i) (filter (fun x => negb (Ident_eqb (id x) i)) us) = None.
Proof.
  induction us as [|a us IH]; simpl; [reflexivity|].
  destruct (Ident_eqb (id a) i) eqn:E; simpl; [exact IH|].
  now rewrite E.
Qed.

Lemma verify_absent_run (s : BaseUserService) (user_id : Ident) (t : Z) (w : World) :
  id_round_trips user_id ->
  now w < t + 60 * 60 * 24 ->
  row user_id w = None ->
  verify s (issued_token s user_id "verify" t) w = (Raise InvalidTokenException, w).
Proof.
  intros Hid Hlive Hrow. unfold row in Hrow. unfold verify, bind.
  rewrite (decode_issued_token s user_id "verify" t w Hlive).
  simpl sub. rewrite (Hid w).
  unfold UserRepository.update, UserRepository.get. unfold_svc.
  rewrite Hrow. reflexivity.
Qed.

Lemma reset_password_absent_run (s : BaseUserService) (user_id : Ident) (t : Z)
    (w : World) (password : string) :
  id_round_trips user_id ->
  now w < t + 60 * 60 * 24 ->
  row user_id w = None ->
  reset_password s (issued_token s user_id "reset_password" t) password w
  = (Raise InvalidTokenException, spend_draw w).
Proof.
  intros Hid Hlive Hrow. unfold row in Hrow. unfold reset_password, bind.
  rewrite (decode_issued_token s user_id "reset_password" t w Hlive).
  simpl sub. rewrite (Hid w).
  unfold hash, UserRepository.update, UserRepository.get. unfold_svc. simpl.
  rewrite Hrow. reflexivity.
Qed.

(** X17. Deleting a user voids what was issued for it.  [delete_user]
    returns the row and removes it, leaving the rows of other ids; from
    then on [get_user] raises [NotFoundError], and the verification and
    reset tokens issued for the user, though unexpired, are refused with
    [InvalidTokenException]. *)
Theorem delete_user_voids_tokens
    (s : BaseUserService) (user_id : Ident) (w0 w : World) (u : User) (password : string)
    (verify_token reset_token : jwt)
    (Hv : fst (generate_token s user_id "verify" w0) = Return verify_token)
    (Hr : fst (generate_token s user_id "reset_password" w0) = Return reset_token)
    (Hid : id_round_trips user_id)
    (Hlive : now w < now w0 + 60 * 60 * 24)
    (Hrow : row user_id w = Some u) :
  exists w',
    delete_user user_id w = (Return u, w') /\
    (forall x, In x (users w') <-> In x (users w) /\ id x <> user_id) /\
    fst (get_user user_id w') = Raise NotFoundError /\
    fst (verify s verify_token w') = Raise InvalidTokenException /\
    fst (reset_password s reset_token password w') = Raise InvalidTokenException.
Proof.
  rewrite generate_token_run in Hv, Hr. simpl in Hv, Hr.
  injection Hv as <-. injection Hr as <-.
  set (w' := with_users (filter (fun x => negb (Ident_eqb (id x) user_id)) (users w)) w).
  assert (Hgone : row user_id w' = None) by (unfold row, w'; simpl; apply find_filter_out).
  exists w'. split; [|split; [|split; [|split]]].
  - unfold delete_user, user_repository_delete, UserRepository.get. unfold_svc.
    unfold row in Hrow. rewrite Hrow. reflexivity.
  - intro x. unfold w'. simpl. rewrite filter_In. split.
    + intros [Hin Hne]. split; [exact Hin|]. intro E.
      rewrite E, Ident_eqb_refl in Hne. discriminate.
    + intros [Hin Hne]. split; [exact Hin|].
      destruct (Ident_eqb (id x) user_id) eqn:E; [|reflexivity].
      apply Ident_eqb_eq in E. contradiction.
  - unfold get_user, UserRepository.get. unfold row in Hgone. now rewrite Hgone.
  - now rewrite (verify_absent_run s user_id (now w0) w' Hid Hlive Hgone).
  - now rewrite (reset_password_absent_run s user_id (now w0) w' password Hid Hlive Hgone).
Qed.

(** ** OAuth2: the public callback and the routes *)

Lemma oauth2_callback_run
    (s : BaseUserService) (url_for : string -> string) (data : CallbackData)
    (oauth_client : BaseOAuth2) (state_secret callback_route_name : string)
    (redirect_url : option string)
    (associate_by_email is_verified_by_default is_associate_callback : bool)
    (associate_user : option User) (w : World)
    (code access account_id_ : string) (token : OAuth2Token)
    (account_email_ : option string) :
  oauth2_repository s <> None ->
  data_code data = Some code ->
  get_access_token oauth_client (replace_2F code)
    (match redirect_url with Some r => r | None => url_for callback_route_name end)
    (data_code_verifier data) = Return token ->
  token_access_token token = Some access ->
  get_id_email oauth_client access = Return (account_id_, account_email_) ->
  oauth2_callback s url_for data oauth_client state_secret callback_route_name redirect_url
                  associate_by_email is_verified_by_default is_associate_callback
                  associate_user w
  = match account_email_ with
    | None => (Raise (HTTPException HTTP_400_BAD_REQUEST "OAuth account without email"), w)
    | Some email_ =>
        let oauth_account_dict :=
          mkOAuthAccount (client_name oauth_client) access account_id_ email_
                         (token_expires_at token) (token_refresh_token token) in
        if is_associate_callback then
          match associate_user with
          | None =>
              (Raise (HTTPException HTTP_400_BAD_REQUEST "Associate user is required"), w)
          | Some u =>
              _oauth2_associate_callback s u (state_param (data_state data)) state_secret
                                         oauth_account_dict w
          end
        else
          _oauth2_callback s (client_name oauth_client) account_id_ email_
                           associate_by_email is_verified_by_default
                           (state_param (data_state data)) state_secret
                           oauth_account_dict w
    end.
Proof.
  intros Hrepo Hcode Htoken Haccess Hidemail.
  unfold oauth2_callback. destruct (oauth2_repository s); [|congruence].
  rewrite Hcode. unfold bind at 1. unfold ret at 1.
  unfold bind at 1. unfold lift at 1. rewrite Htoken.
  rewrite Haccess. unfold bind at 1. unfold ret at 1.
  unfold bind at 1. unfold lift at 1. rewrite Hidemail.
  destruct account_email_ as [email_|]; [|reflexivity].
  destruct is_associate_callback; [|reflexivity].
  destruct associate_user; reflexivity.
Qed.

(** X18. [oauth2_callback] refuses a provider account without e-mail:
    when the provider's answer carries no e-mail, the outcome is the
    status-400 error "OAuth account without email" and the state is
    untouched, in the sign-in and in the associate variant alike and
    whatever the state token is. *)
Theorem oauth2_callback_requires_email
    (s : BaseUserService) (url_for : string -> string) (data : CallbackData)
    (oauth_client : BaseOAuth2) (state_secret callback_route_name : string)
    (redirect_url : option string)
    (associate_by_email is_verified_by_default is_associate_callback : bool)
    (associate_user : option User) (w : World)
    (code access account_id_ : string) (token : OAuth2Token)
    (Hrepo : oauth2_repository s <> None)
    (Hcode : data_code data = Some code)
    (Htoken : get_access_token oauth_client (replace_2F code)
                (match redirect_url with Some r => r | None => url_for callback_route_name end)
                (data_code_verifier data) = Return token)
    (Haccess : token_access_token token = Some access)
    (Hidemail : get_id_email oauth_client access = Return (account_id_, None)) :
  oauth2_callback s url_for data oauth_client state_secret callback_route_name redirect_url
                  associate_by_email is_verified_by_default is_associate_callback
                  associate_user w
  = (Raise (HTTPException HTTP_400_BAD_REQUEST "OAuth account without email"), w).
Proof.
  exact (oauth2_callback_run s url_for data oauth_client state_secret callback_route_name
           redirect_url associate_by_email is_verified_by_default is_associate_callback
           associate_user w code access account_id_ token None
           Hrepo Hcode Htoken Haccess Hidemail).
Qed.

(** X19. The associate flow through its two routes.  The [authorize]
    route hands the provider client a state token bound to the caller's
    id; when the provider echoes that token to the [callback] route within
    the hour, for the same active caller, the route attaches the
    provider account to the caller, stores it and logs the caller in. *)
Theorem associate_routes_round_trip
    (auth_backend : AuthBackend) (s : BaseUserService) (url_for : string -> string)
    (oauth_client : BaseOAuth2) (state_secret : string) (redirect_url : option string)
    (associate_by_email is_verified_by_default : bool) (request_user : User)
    (scopes : option (list string)) (w0 w : World) (session : Session)
    (code access account_id_ email_ : string) (token : OAuth2Token)
    (Hrepo : oauth2_repository s <> None)
    (Hlive : now w < now w0 + 3600)
    (Hrow : row (id request_user) w = Some request_user)
    (Hactive : is_active request_user = true)
    (Htoken : forall verifier,
        get_access_token oauth_client (replace_2F code)
          (match redirect_url with
           | Some r => r
           | None => url_for ("oauth2-associate:" ++ client_name oauth_client ++ ".callback")
           end) verifier = Return token)
    (Haccess : token_access_token token = Some access)
    (Hidemail : get_id_email oauth_client access = Return (account_id_, Some email_)) :
  exists state,
    oauth2_associate_authorize_route s url_for oauth_client state_secret redirect_url
                                     request_user scopes w0
    = (get_authorization_url oauth_client
         (match redirect_url with
          | Some r => r
          | None => url_for ("oauth2-associate:" ++ client_name oauth_client ++ ".callback")
          end) state scopes, w0) /\
    forall verifier error,
      let account := mkOAuthAccount (client_name oauth_client) access account_id_ email_
                                    (token_expires_at token) (token_refresh_token token) in
      let user' := set_oauth_accounts (oauth_accounts request_user ++ [account])
                                      request_user in
      oauth2_associate_callback_route auth_backend s url_for oauth_client state_secret
        redirect_url associate_by_email is_verified_by_default request_user
        (mkCallbackData (Some code) verifier (Some state) error) session w
      = (Return (fst (finish_login auth_backend user' session)),
         snd (finish_login auth_backend user' session),
         with_users (replace_user user' (users w)) w).
Proof.
  set (state := Signed state_secret
                  (mkClaims (Some (now w0 + 3600))
                     (dict_set [("sub", str (id request_user))] "aud" STATE_TOKEN_AUDIENCE))).
  exists state. split.
  - unfold oauth2_associate_authorize_route, oauth2_authorize, generate_state_token,
      generate_jwt.
    destruct (oauth2_repository s); [|congruence].
    unfold_svc. unfold state. simpl.
    match goal with |- match ?r with _ => _ end = _ => destruct r end; reflexivity.
  - intros verifier error account user'.
    unfold oauth2_associate_callback_route.
    unfold get_user, UserRepository.get. unfold row in Hrow. rewrite Hrow.
    rewrite Hactive. simpl negb. cbv iota.
    rewrite (oauth2_callback_run s url_for
               (mkCallbackData (Some code) verifier (Some state) error)
               oauth_client state_secret _ redirect_url
               associate_by_email is_verified_by_default true (Some request_user) w
               code access account_id_ token (Some email_)
               Hrepo eq_refl (Htoken verifier) Haccess Hidemail).
    cbv zeta. cbv iota. simpl state_param.
    unfold _oauth2_associate_callback. destruct (oauth2_repository s); [|congruence].
    unfold try_except, try_except_else, bind.
    unfold state. rewrite (decode_state_token _ state_secret _ w Hlive).
    unfold ret at 1. simpl dict_get. unfold lift.
    rewrite String.eqb_refl. simpl negb. cbv iota.
    unfold OAuthRepository.add_oauth_account, UserRepository._update. unfold_svc.
    fold account. fold user'.
    destruct (finish_login auth_backend user' session) as [response session'] eqn:F.
    unfold with_users. simpl. rewrite F. reflexivity.
Qed.

(** ** Login routes *)

(** X20. [login_jwt] answers with a login response only for a user that
    [authenticate] returned and that is verified; the response carries
    that user and [str(user.id)] as identifier.  Every other outcome is an
    exception, and with a session backend the route raises before
    [authenticate] runs, leaving the state untouched. *)
Theorem login_jwt_requires_verified
    (auth_backend : AuthBackend) (s : BaseUserService) (data : AuthenticationSchema)
    (w : World) :
  (forall response,
      fst (login_jwt auth_backend s data w) = Return response ->
      exists user,
        fst (authenticate s data w) = Return (Some user) /\
        is_verified user = true /\
        auth_backend <> SessionAuth /\
        response = LoginResponse (str (id user)) user) /\
  (fst (authenticate s data w) = Return None -> auth_backend <> SessionAuth ->
   fst (login_jwt auth_backend s data w) = Raise NotAuthorizedException) /\
  (forall user,
      fst (authenticate s data w) = Return (Some user) -> is_verified user = false ->
      auth_backend <> SessionAuth ->
      fst (login_jwt auth_backend s data w)
      = Raise (PermissionDeniedException "not verified")) /\
  (auth_backend = SessionAuth ->
   exists d, login_jwt auth_backend s data w = (Raise (ImproperlyConfiguredException d), w)).
Proof.
  assert (Hjwt : auth_backend <> SessionAuth ->
            login_jwt auth_backend s data w
            = match authenticate s data w with
              | (Return (Some user), w') =>
                  if negb (is_verified user)
                  then (Raise (PermissionDeniedException "not verified"), w')
                  else (Return (LoginResponse (str (id user)) user), w')
              | (Return None, w') => (Raise NotAuthorizedException, w')
              | (Raise e, w') => (Raise e, w')
              end).
  { intro Hb. unfold login_jwt, bind.
    destruct auth_backend; try congruence;
      destruct (authenticate s data w) as [[[user|]|e] w']; try reflexivity;
      destruct (is_verified user); reflexivity. }
  split; [|split; [|split]].
  - intros response Hres. destruct auth_backend eqn:Hb.
    1,2: rewrite Hjwt in Hres by discriminate;
         destruct (authenticate s data w) as [[[user|]|e] w']; simpl in *;
         try discriminate;
         destruct (is_verified user) eqn:Hv; simpl in *; try discriminate;
         injection Hres as <-; exists user; repeat split; try assumption; discriminate.
    simpl in Hres. discriminate.
  - intros Hnone Hb. rewrite (Hjwt Hb).
    destruct (authenticate s data w) as [[[user|]|e] w']; simpl in *;
      try discriminate. reflexivity.
  - intros user Hsome Hv Hb. rewrite (Hjwt Hb).
    destruct (authenticate s data w) as [[[u|]|e] w']; simpl in *; try discriminate.
    injection Hsome as ->. rewrite Hv. reflexivity.
  - intros ->. eexists. reflexivity.
Qed.

(** X21. The two login routes differ on unverified users.  For a user
    that [authenticate] returns and that is not verified, [login_jwt]
    refuses with the status-403 error "not verified", while
    [login_session] returns the user and records its id under [user_id] in
    the session; both leave the state as [authenticate] left it. *)
Theorem session_login_admits_unverified
    (s : BaseUserService) (data : AuthenticationSchema) (w : World) (session : Session)
    (user : User)
    (Hauth : fst (authenticate s data w) = Return (Some user))
    (Hunverified : is_verified user = false) :
  login_jwt JWTAuth s data w
  = (Raise (PermissionDeniedException "not verified"), snd (authenticate s data w)) /\
  login_session SessionAuth s data session w
  = (Return user, session_set session "user_id" (id user), snd (authenticate s data w)) /\
  session_get (session_set session "user_id" (id user)) "user_id" = Some (id user).
Proof.
  split; [|split].
  - unfold login_jwt, bind.
    destruct (authenticate s data w) as [[[u|]|e] w']; simpl in *; try discriminate.
    injection Hauth as ->. rewrite Hunverified. reflexivity.
  - unfold login_session.
    destruct (authenticate s data w) as [[[u|]|e] w']; simpl in *; try discriminate.
    injection Hauth as ->. reflexivity.
  - induction session as [|[k v] r IH]; simpl.
    + reflexivity.
    + destruct (String.eqb k "user_id") eqn:E; simpl.
      * reflexivity.
      * rewrite E. exact IH.
Qed.

(** ** Authentication: what a failed login leaves behind *)

Lemma authenticate_run_found (s : BaseUserService) (data : AuthenticationSchema)
    (w : World) (u : User) (verified should_proceed : bool) :
  pre_login_hook s data = Return should_proceed ->
  candidates s data w = [u] ->
  password_check s data w u = (verified, None) ->
  authenticate s data w
  = (if negb verified || negb should_proceed then Return None
     else match post_login_hook s u with
          | Return _ => Return (Some u)
          | Raise e => Raise e
          end,
     spend_draw w).
Proof.
  intros Hpre Hcand Hcheck. unfold candidates, password_check in *.
  unfold authenticate, UserRepository.get_one, UserRepository.get_one_or_none,
    verify_and_update.
  unfold_svc. rewrite Hpre, Hcand. simpl. rewrite Hcheck. simpl.
  destruct (negb verified || negb should_proceed); [reflexivity|].
  destruct (post_login_hook s u); reflexivity.
Qed.

(** X22. A failed login leaves the same trace whatever made it fail.
    With a pre-login hook that returns, the login of an unknown identifier
    and the login of a known one with a password that does not verify both
    return [None] and end in the same state: one password verification
    spent, no row changed, nothing sent. *)
Theorem failed_logins_are_indistinguishable
    (s : BaseUserService) (unknown known : AuthenticationSchema) (w : World) (u : User)
    (b1 b2 : bool)
    (Hpre1 : pre_login_hook s unknown = Return b1)
    (Hpre2 : pre_login_hook s known = Return b2)
    (Hunknown : candidates s unknown w = [])
    (Hknown : candidates s known w = [u])
    (Hwrong : password_check s known w u = (false, None)) :
  authenticate s unknown w = (Return None, spend_draw w) /\
  authenticate s known w = (Return None, spend_draw w).
Proof.
  split.
  - unfold candidates in Hunknown.
    unfold authenticate, UserRepository.get_one, UserRepository.get_one_or_none,
      verify_and_update.
    unfold_svc. rewrite Hpre1, Hunknown. reflexivity.
  - now rewrite (authenticate_run_found s known w u false b2 Hpre2 Hknown Hwrong).
Qed.

(** ** The registration scenario, end to end *)

Lemma filter_app_last {A} (p : A -> bool) (l : list A) (x : A) :
  (forall y, In y l -> p y = false) -> p x = true -> filter p (l ++ [x]) = [x].
Proof.
  intros Hl Hx. rewrite filter_app. simpl. rewrite Hx.
  replace (filter p l) with (@nil A); [reflexivity|].
  symmetry. apply filter_nil_existsb. now apply existsb_false_iff.
Qed.

Lemma login_jwt_run (s : BaseUserService) (data : AuthenticationSchema) (w w' : World)
    (user : User) :
  authenticate s data w = (Return (Some user), w') ->
  login_jwt JWTAuth s data w
  = (if negb (is_verified user) then Raise (PermissionDeniedException "not verified")
     else Return (LoginResponse (str (id user)) user), w').
Proof.
  intro H. unfold login_jwt, bind. rewrite H.
  destruct (is_verified user); reflexivity.
Qed.

(** X23. The registration scenario.  With verification required and a
    password manager that verifies the hash it made, a new user who
    registers is refused by [login_jwt] with "not verified" although the
    password is right; after [verify] with the token sent at registration,
    the same login answers with a login response for the verified user. *)
Theorem unverified_until_verify
    (s : BaseUserService) (data : UserCreate) (login : AuthenticationSchema)
    (w : World) (x : string)
    (Hreq : require_verification_on_registration s = true)
    (Hpre : pre_registration_hook s data = Return tt)
    (Hpost : forall u, post_registration_hook s u = Return tt)
    (Hver : forall u, post_verification_hook s u = Return tt)
    (Hprelogin : pre_login_hook s login = Return true)
    (Hpostlogin : forall u, post_login_hook s u = Return tt)
    (Hpm : forall salt salt',
        pm_verify_and_update (password_manager s) salt (create_password data)
          (Some (pm_hash (password_manager s) salt' (create_password data)))
        = (true, None))
    (Hident : create_identifier s data = Some x)
    (Hlogin_id : lower (auth_identifier login) = lower x)
    (Hlogin_pw : auth_password login = create_password data)
    (Hfirst : forall u, In u (users w) ->
                        lower_column_is (user_auth_identifier s) (lower x) u = false)
    (Hfresh : forall u, In u (users w) -> id u <> pk_source w (next_pk w))
    (Hid : id_round_trips (pk_source w (next_pk w))) :
  exists user token w1 w2 w3 w4,
    register s data w = (Return user, w1) /\
    outbox w1 = (outbox w ++ [VerificationToken (id user) token])%list /\
    login_jwt JWTAuth s login w1
    = (Raise (PermissionDeniedException "not verified"), w2) /\
    verify s token w2 = (Return (set_is_verified true user), w3) /\
    login_jwt JWTAuth s login w3
    = (Return (LoginResponse (str (id user)) (set_is_verified true user)), w4).
Proof.
  pose proof Hfirst as Hfirst'.
  apply existsb_false_iff in Hfirst. unfold create_identifier in Hident.
  set (pk := pk_source w (next_pk w)) in *.
  set (h := pm_hash (password_manager s) (entropy w (draws w)) (create_password data)).
  set (user := mkUser pk (create_email data) h true false [] [] (create_columns data)).
  set (token := issued_token s pk "verify" (now w)).
  set (w1 := mkWorld (users w ++ [user]) (role_table w) (pk_source w) (S (next_pk w))
                     (now w) (entropy w) (S (draws w))
                     (outbox w ++ [VerificationToken pk token])
                     (signed_tokens w ++ [token])).
  assert (Hreg : register s data w = (Return user, w1)).
  { unfold register, hash, add_user, UserRepository.exists_, UserRepository.add, getattr,
      initiate_verification, generate_token, send_verification_token.
    unfold_svc. rewrite Hpre, Hreq. simpl. rewrite Hident. simpl. rewrite Hfirst.
    simpl. rewrite Hpost. reflexivity. }
  assert (Hux : forall v, getattr (set_is_verified v user) (user_auth_identifier s) = Some x)
    by (intro v; exact Hident).
  assert (Hmatch : forall v,
            lower_column_is (user_auth_identifier s) (lower (auth_identifier login))
                            (set_is_verified v user) = true).
  { intro v. unfold lower_column_is. rewrite (Hux v), Hlogin_id. apply String.eqb_refl. }
  assert (Hold : forall y, In y (users w) ->
            lower_column_is (user_auth_identifier s) (lower (auth_identifier login)) y
            = false).
  { intros y Hy. rewrite Hlogin_id. now apply Hfirst'. }
  (* first login: refused *)
  set (w2 := spend_draw w1).
  assert (Hauth1 : authenticate s login w1 = (Return (Some user), w2)).
  { rewrite (authenticate_run_found s login w1 user true true Hprelogin).
    - simpl. now rewrite Hpostlogin.
    - unfold candidates. simpl. apply filter_app_last; [exact Hold | exact (Hmatch false)].
    - unfold password_check. rewrite Hlogin_pw. apply Hpm. }
  (* verification *)
  assert (Hrow : row pk w2 = Some user).
  { unfold row, w2, w1. simpl.
    rewrite (find_app_absent _ _ _ (find_absent pk (users w) Hfresh)). simpl.
    now rewrite Ident_eqb_refl. }
  assert (Hlive : now w2 < now w + 60 * 60 * 24) by (simpl; lia).
  pose proof (verify_run s pk (now w) w2 user Hid Hlive Hrow) as Hverify.
  rewrite Hver in Hverify.
  set (verified := set_is_verified true user) in *.
  set (w3 := with_users (replace_user verified (users w2)) w2) in *.
  assert (Husers3 : users w3 = (users w ++ [verified])%list).
  { unfold w3. simpl. apply (replace_user_app_fresh verified user (users w) eq_refl Hfresh). }
  (* second login: accepted *)
  assert (Hauth2 : authenticate s login w3 = (Return (Some verified), spend_draw w3)).
  { rewrite (authenticate_run_found s login w3 verified true true Hprelogin).
    - simpl. now rewrite Hpostlogin.
    - unfold candidates. rewrite Husers3.
      apply filter_app_last; [exact Hold | exact (Hmatch true)].
    - unfold password_check. rewrite Hlogin_pw. apply Hpm. }
  exists user, token, w1, w2, w3, (spend_draw w3).
  split; [exact Hreg|]. split; [reflexivity|].
  split; [exact (login_jwt_run s login w1 w2 user Hauth1)|].
  split; [exact Hverify|].
  exact (login_jwt_run s login w3 (spend_draw w3) verified Hauth2).
Qed.

(** ** The OAuth2 routes and inactive users *)

(** X24. The sign-in callback route tests [is_active] after the service
    call, the associate callback route before it.  For a returning user
    that is inactive, the sign-in route raises the status-400 error "User
    is not active." with the session as it was, but the refreshed account
    has been stored; the associate route for an inactive caller raises the
    status-401 error with state and session untouched, whatever the
    request carries. *)
Theorem oauth_routes_inactive_user
    (auth_backend : AuthBackend) (s : BaseUserService) (url_for : string -> string)
    (oauth_client : BaseOAuth2) (state_secret : string) (redirect_url : option string)
    (associate_by_email is_verified_by_default : bool)
    (params : CallbackData) (session : Session) (w : World)
    (code access account_id_ email_ : string) (token : OAuth2Token)
    (state_data : dict) (user : User)
    (Hrepo : oauth2_repository s <> None)
    (Hcode : data_code params = Some code)
    (Htoken : get_access_token oauth_client (replace_2F code)
                (match redirect_url with
                 | Some r => r
                 | None => url_for ("oauth2:" ++ client_name oauth_client ++ ".callback")
                 end) (data_code_verifier params) = Return token)
    (Haccess : token_access_token token = Some access)
    (Hidemail : get_id_email oauth_client access = Return (account_id_, Some email_))
    (Hdecode : fst (decode_jwt (state_param (data_state params)) state_secret
                               [STATE_TOKEN_AUDIENCE] w) = Return state_data)
    (Howner : account_owners (client_name oauth_client) account_id_ w = [user])
    (Hrow : row (id user) w = Some user)
    (Hinactive : is_active user = false) :
  let account := mkOAuthAccount (client_name oauth_client) access account_id_ email_
                                (token_expires_at token) (token_refresh_token token) in
  let user' := set_oauth_accounts
                 (refreshed_accounts (client_name oauth_client) account_id_ account
                                     (oauth_accounts user)) user in
  oauth2_callback_route auth_backend s url_for oauth_client state_secret redirect_url
                        associate_by_email is_verified_by_default params session w
  = (Raise (HTTPException HTTP_400_BAD_REQUEST "User is not active."), session,
     with_users (replace_user user' (users w)) w) /\
  row (id user) (with_users (replace_user user' (users w)) w) = Some user' /\
  (forall any_params,
      oauth2_associate_callback_route auth_backend s url_for oauth_client state_secret
        redirect_url associate_by_email is_verified_by_default user any_params session w
      = (Raise (HTTPException HTTP_401_UNAUTHORIZED "User is not active."), session, w)).
Proof.
  intros account user'. apply decode_jwt_run in Hdecode.
  assert (Hheld : existsb (same_account (client_name oauth_client) account_id_)
                          (oauth_accounts user) = true).
  { assert (Hin : In user (account_owners (client_name oauth_client) account_id_ w))
      by (rewrite Howner; now left).
    unfold account_owners in Hin. apply in_flat_map in Hin.
    destruct Hin as (y & _ & Hy). apply in_map_iff in Hy.
    destruct Hy as (acc & -> & Hacc). apply filter_In in Hacc.
    apply existsb_exists. now exists acc. }
  split; [|split].
  - unfold oauth2_callback_route.
    rewrite (oauth2_callback_run s url_for params oauth_client state_secret _ redirect_url
               associate_by_email is_verified_by_default false None w
               code access account_id_ token (Some email_)
               Hrepo Hcode Htoken Haccess Hidemail).
    cbv zeta. cbv iota. fold account.
    unfold _oauth2_callback. destruct (oauth2_repository s) eqn:Hr; [|congruence].
    unfold try_except, try_except_else, bind at 1.
    rewrite Hdecode. unfold ret at 1.
    rewrite (get_by_oauth_account_found s (client_name oauth_client) account_id_ w
               user user); [|rewrite Hr; discriminate|exact Howner|exact Hrow].
    rewrite update_matching_run. rewrite Hheld.
    pose proof (refresh_from_map (client_name oauth_client) account_id_ account
                  (oauth_accounts user) []) as Hmap.
    simpl in Hmap. rewrite Hmap. fold user'.
    change (is_active user') with (is_active user). rewrite Hinactive. reflexivity.
  - exact (row_replace_user (id user) w user user' eq_refl Hrow).
  - intro any_params. unfold oauth2_associate_callback_route.
    unfold get_user, UserRepository.get. unfold row in Hrow. rewrite Hrow.
    rewrite Hinactive. reflexivity.
Qed.

(** ** Tokens whose subject is no id *)

(** X25. A token that passes the signature, expiry and audience checks
    but whose subject both [UUID] and [int] refuse makes [verify] and
    [reset_password] raise [ValueError], the error of the second
    conversion, and not [InvalidTokenException]; the state is untouched. *)
Theorem unparseable_subject_raises_value_error
    (s : BaseUserService) (verify_token reset_token : jwt) (password : string) (w : World)
    (tv tr : Token)
    (Hdv : fst (_decode_and_verify_token s verify_token "verify" w) = Return tv)
    (Hdr : fst (_decode_and_verify_token s reset_token "reset_password" w) = Return tr)
    (Hvu : UUID (sub tv) = Raise ValueError) (Hvi : int (sub tv) = Raise ValueError)
    (Hru : UUID (sub tr) = Raise ValueError) (Hri : int (sub tr) = Raise ValueError) :
  verify s verify_token w = (Raise ValueError, w) /\
  reset_password s reset_token password w = (Raise ValueError, w).
Proof.
  assert (Hsv : fst (parse_user_id (sub tv) w) = Raise ValueError).
  { unfold parse_user_id. unfold_svc. rewrite Hvu. simpl. rewrite Hvi. reflexivity. }
  assert (Hsr : fst (parse_user_id (sub tr) w) = Raise ValueError).
  { unfold parse_user_id. unfold_svc. rewrite Hru. simpl. rewrite Hri. reflexivity. }
  apply parse_user_id_run in Hsv. apply parse_user_id_run in Hsr.
  assert (Hrun : forall tok ctx t,
            fst (_decode_and_verify_token s tok ctx w) = Return t ->
            _decode_and_verify_token s tok ctx w = (Return t, w)).
  { intros tok ctx t H.
    pose proof (decode_and_verify_token_state s tok ctx w) as Hw.
    destruct (_decode_and_verify_token s tok ctx w) as [r w']. simpl in *. now subst. }
  split.
  - unfold verify, bind. rewrite (Hrun _ _ _ Hdv), Hsv. reflexivity.
  - unfold reset_password, bind. rewrite (Hrun _ _ _ Hdr), Hsr. reflexivity.
Qed.


End Properties.

(** ** Worked instances *)

#[export] Existing Instance basic_builtins.

Lemma authenticate_success_iff_witness :
  pre_login_hook (demo_service true) alice_login = Return true /\
  fst (authenticate (demo_service true) alice_login demo_world)
  = Return (Some (set_password_hash "new$pw1" alice)).
Proof.
  split; [reflexivity|].
  assert (Huniq : (length (candidates (demo_service true) alice_login demo_world) <= 1)%nat)
    by (vm_compute; apply le_n).
  apply (proj1 (authenticate_success_iff (py := basic_builtins)
                  (demo_service true) alice_login demo_world true
                  eq_refl (fun _ => eq_refl) Huniq)).
  exists alice. repeat split.
Defined.

Lemma authenticate_rehash_persists_when_rejected_witness :
  fst (authenticate (demo_service false) alice_login demo_world) = Return None /\
  users (snd (authenticate (demo_service false) alice_login demo_world))
  = [set_password_hash "new$pw1" alice].
Proof.
  pose proof (authenticate_rehash_persists_when_rejected (py := basic_builtins)
                (demo_service false) alice_login demo_world alice "new$pw1" false
                eq_refl eq_refl eq_refl) as H.
  split; [exact (proj1 H eq_refl) | exact (proj1 (proj2 H))].
Defined.

Lemma stale_subject_is_invalid_token_witness :
  fst (verify (demo_service true) stale_token demo_world) = Raise InvalidTokenException /\
  fst (reset_password (demo_service true) stale_reset_token "pw2" demo_world)
  = Raise InvalidTokenException.
Proof.
  split.
  - refine (proj1 (stale_subject_is_invalid_token (py := basic_builtins)
                     (demo_service true) stale_token "pw2"
                     demo_world (mkToken 5000 "99" (Some "verify")) (IdInt 99)
                     eq_refl eq_refl _)).
    intros u [<-|[]]; discriminate.
  - refine (proj1 (proj2 (stale_subject_is_invalid_token (py := basic_builtins) (demo_service true)
                     stale_reset_token "pw2"
                     demo_world (mkToken 5000 "99" (Some "reset_password")) (IdInt 99)
                     eq_refl eq_refl _))).
    intros u [<-|[]]; discriminate.
Defined.

Lemma token_audience_and_expiry_enforced_witness :
  fst (_decode_and_verify_token (demo_service true) (Signed "s3cret" expired_claims)
                                "verify" demo_world)
  = Raise InvalidTokenException.
Proof.
  apply (proj2 (proj2 (token_audience_and_expiry_enforced (demo_service true)))
           expired_claims 900 "verify" demo_world eq_refl).
  vm_compute. discriminate.
Defined.


Lemma assign_role_twice_conflict_witness :
  (exists user' w1,
      assign_role (demo_service true) (IdInt 1) (IdInt 7) demo_world = (Return user', w1) /\
      roles user' = [admin] /\
      fst (assign_role (demo_service true) (IdInt 1) (IdInt 7) w1)
      = Raise (IntegrityError "user already has role 'admin'") /\
      users (snd (assign_role (demo_service true) (IdInt 1) (IdInt 7) w1)) = users w1) /\
  revoke_role (demo_service true) (IdInt 1) (IdInt 7) demo_world
  = (Raise (IntegrityError "user does not have role 'admin'"), demo_world).
Proof.
  apply (assign_role_twice_conflict (demo_service true) (IdInt 1) (IdInt 7) demo_world
           alice admin).
  - discriminate.
  - reflexivity.
  - reflexivity.
  - reflexivity.
  - reflexivity.
Defined.

Lemma initiate_password_reset_silent_witness :
  fst (initiate_password_reset (demo_service true) "nobody@example.com" demo_world)
  = fst (initiate_password_reset (demo_service true) "alice@example.com" demo_world) /\
  signed_tokens
    (snd (initiate_password_reset (demo_service true) "nobody@example.com" demo_world))
  = [issued_token (demo_service true) (IdUUID 0) "reset_password" 1000] /\
  outbox (snd (initiate_password_reset (demo_service true) "nobody@example.com" demo_world))
  = [].
Proof.
  assert (Hnobody : (length (reset_candidates "nobody@example.com" demo_world) <= 1)%nat)
    by (vm_compute; lia).
  assert (Halice : (length (reset_candidates "alice@example.com" demo_world) <= 1)%nat)
    by (vm_compute; lia).
  assert (Hnone : reset_candidates "nobody@example.com" demo_world = [])
    by (vm_compute; reflexivity).
  split.
  - transitivity (@Return unit tt).
    + exact (proj1 (initiate_password_reset_silent (py := basic_builtins)
                      (demo_service true) "nobody@example.com" demo_world demo_world
                      Hnobody Hnobody)).
    + symmetry.
      exact (proj1 (initiate_password_reset_silent (py := basic_builtins)
                      (demo_service true) "alice@example.com" demo_world demo_world
                      Halice Halice)).
  - destruct (proj2 (proj2 (initiate_password_reset_silent (py := basic_builtins)
                              (demo_service true) "nobody@example.com" demo_world
                              demo_world Hnobody Hnobody)) Hnone)
      as (_ & Hsigned & Houtbox & _).
    split; [exact Hsigned | exact Houtbox].
Defined.

Lemma associate_callback_subject_mismatch_witness :
  exists e,
    _oauth2_associate_callback (demo_service true) alice state_for_other "state-secret"
                               github_account demo_world
    = (Raise e, demo_world) /\
    e = HTTPException HTTP_400_BAD_REQUEST "Bad Request" /\
    is_400_class e = true.
Proof.
  apply (associate_callback_subject_mismatch (demo_service true) alice state_for_other
           "state-secret" github_account demo_world
           [("sub", "2"); ("aud", STATE_TOKEN_AUDIENCE)] "2").
  - discriminate.
  - reflexivity.
  - reflexivity.
  - vm_compute. discriminate.
Defined.

Lemma associate_callback_missing_subject_witness :
  _oauth2_associate_callback (demo_service true) alice state_without_subject
                             "state-secret" github_account demo_world
  = (Raise (KeyError "sub"), demo_world).
Proof.
  apply (associate_callback_missing_subject (demo_service true) alice
           state_without_subject "state-secret" github_account demo_world
           [("aud", STATE_TOKEN_AUDIENCE)]).
  - discriminate.
  - reflexivity.
  - reflexivity.
Defined.

Lemma oauth2_callback_links_matching_email_witness :
  fst (_oauth2_callback (demo_service true) "github" "gh-42" "Alice@Example.com"
                        false false state_without_subject "state-secret"
                        github_account demo_world)
  = Return (set_oauth_accounts [github_account] alice) /\
  users (snd (_oauth2_callback (demo_service true) "github" "gh-42" "Alice@Example.com"
                               false false state_without_subject "state-secret"
                               github_account demo_world))
  = [set_oauth_accounts [github_account] alice].
Proof.
  assert (Hnew : forall u, In u (users demo_world) ->
                   filter (same_account "github" "gh-42") (oauth_accounts u) = []).
  { intros u [<-|[]]. reflexivity. }
  assert (Hrepo : oauth2_repository (demo_service true) <> None) by discriminate.
  pose proof (proj1 (oauth2_callback_links_matching_email
            (demo_service true) "github" "gh-42" "Alice@Example.com" false false
            state_without_subject "state-secret" github_account demo_world
            [("aud", STATE_TOKEN_AUDIENCE)] alice Hrepo eq_refl Hnew eq_refl)) as H.
  split; [exact (f_equal fst H) | exact (f_equal (fun r => users (snd r)) H)].
Defined.

Lemma issued_token_round_trip_witness :
  fst (_decode_and_verify_token (demo_service true)
         (issued_token (demo_service true) (IdInt 1) "verify" 1000) "verify" demo_world)
  = Return (mkToken 87400 "1" (Some "verify")).
Proof.
  assert (H : now demo_world < now demo_world + 60 * 60 * 24) by (vm_compute; reflexivity).
  pose proof (issued_token_round_trip (demo_service true) (IdInt 1) "verify"
                demo_world demo_world H) as R.
  exact (f_equal fst R).
Defined.

Lemma small_int_id_round_trips_1 : id_round_trips (IdInt 1).
Proof. intro w. reflexivity. Qed.

Lemma small_int_id_round_trips_2 : id_round_trips (IdInt 2).
Proof. intro w. reflexivity. Qed.

Lemma small_int_id_round_trips_4 : id_round_trips (IdInt 4).
Proof. intro w. reflexivity. Qed.

Lemma verify_marks_user_verified_witness :
  verify (demo_service true) (issued_token (demo_service true) (IdInt 2) "verify" 1000)
         office_world
  = (Return (set_is_verified true bob),
     with_users [alice; set_is_verified true bob; carol] office_world).
Proof.
  apply (verify_marks_user_verified (py := basic_builtins)
           (demo_service true) (IdInt 2) office_world
           office_world _ bob eq_refl small_int_id_round_trips_2).
  - vm_compute. reflexivity.
  - reflexivity.
  - reflexivity.
Defined.

Lemma register_then_verify_witness :
  exists user token w1 w2,
    register (demo_service true) bob_signup demo_world = (Return user, w1) /\
    is_verified user = false /\
    outbox w1 = (outbox demo_world ++ [VerificationToken (id user) token])%list /\
    verify (demo_service true) token w1 = (Return (set_is_verified true user), w2) /\
    row (id user) w2 = Some (set_is_verified true user).
Proof.
  apply (register_then_verify (py := basic_builtins)
           (demo_service true) bob_signup demo_world "bob@example.com"
           eq_refl eq_refl (fun _ => eq_refl) (fun _ => eq_refl) eq_refl).
  - intros u [<-|[]]. reflexivity.
  - intros u [<-|[]]. discriminate.
  - exact small_int_id_round_trips_2.
Defined.

Lemma reset_password_stores_hash_witness :
  fst (reset_password (demo_service true)
         (issued_token (demo_service true) (IdInt 2) "reset_password" 1000)
         "fresh" office_world) = Return tt /\
  row (IdInt 2)
      (snd (reset_password (demo_service true)
              (issued_token (demo_service true) (IdInt 2) "reset_password" 1000)
              "fresh" office_world))
  = Some (set_password_hash "new$fresh" bob).
Proof.
  assert (Hlive : now office_world < now office_world + 60 * 60 * 24)
    by (vm_compute; reflexivity).
  pose proof (reset_password_stores_hash (py := basic_builtins)
                (demo_service true) (IdInt 2) office_world
                office_world _ bob "fresh" eq_refl small_int_id_round_trips_2
                Hlive eq_refl) as H.
  split; [exact (proj1 H) | exact (proj1 (proj2 H))].
Defined.

Lemma reset_token_is_reusable_witness :
  exists w1 w2,
    reset_password (demo_service true)
      (issued_token (demo_service true) (IdInt 2) "reset_password" 1000) "first"
      office_world = (Return tt, w1) /\
    reset_password (demo_service true)
      (issued_token (demo_service true) (IdInt 2) "reset_password" 1000) "second"
      w1 = (Return tt, w2) /\
    row (IdInt 2) w2 = Some (set_password_hash "new$second" bob).
Proof.
  assert (Hlive : now office_world < now office_world + 60 * 60 * 24)
    by (vm_compute; reflexivity).
  exact (reset_token_is_reusable (py := basic_builtins)
           (demo_service true) (IdInt 2) office_world office_world
           _ bob "first" "second" eq_refl small_int_id_round_trips_2 Hlive eq_refl).
Defined.

Lemma forgot_password_flow_witness :
  exists token w1 w2,
    initiate_password_reset (demo_service true) "BOB@example.com" office_world
    = (Return tt, w1) /\
    users w1 = users office_world /\
    outbox w1 = [PasswordResetToken (IdInt 2) token] /\
    reset_password (demo_service true) token "fresh" w1 = (Return tt, w2) /\
    row (IdInt 2) w2 = Some (set_password_hash "new$fresh" bob).
Proof.
  exact (forgot_password_flow (py := basic_builtins)
           (demo_service true) "BOB@example.com" office_world bob
           "fresh" eq_refl eq_refl small_int_id_round_trips_2).
Defined.

Lemma assign_then_revoke_restores_witness :
  exists user' w1,
    assign_role (demo_service true) (IdInt 2) (IdInt 7) office_world = (Return user', w1) /\
    existsb (Role_eqb admin) (roles user') = true /\
    revoke_role (demo_service true) (IdInt 2) (IdInt 7) w1 = (Return bob, office_world).
Proof.
  apply (assign_then_revoke_restores (demo_service true) (IdInt 2) (IdInt 7) office_world
           bob admin).
  - discriminate.
  - reflexivity.
  - reflexivity.
  - reflexivity.
  - reflexivity.
  - repeat constructor; simpl; intuition discriminate.
Defined.

Lemma associate_with_own_state_links_witness :
  _oauth2_associate_callback (demo_service true) bob
    (Signed "state-secret"
       (mkClaims (Some 4600) [("sub", "2"); ("aud", STATE_TOKEN_AUDIENCE)]))
    "state-secret" github_account office_world
  = (Return (set_oauth_accounts [github_account] bob),
     with_users [alice; set_oauth_accounts [github_account] bob; carol] office_world).
Proof.
  assert (Hlive : now office_world < now office_world + 3600) by (vm_compute; reflexivity).
  assert (Hrepo : oauth2_repository (demo_service true) <> None) by discriminate.
  exact (proj1 (associate_with_own_state_links (demo_service true) bob "state-secret" 3600
                  github_account office_world office_world Hrepo Hlive)).
Defined.

Lemma oauth2_callback_refreshes_existing_account_witness :
  fst (_oauth2_callback (demo_service true) "github" "gh-42" "carol@example.com"
         false false state_without_subject "state-secret"
         (mkOAuthAccount "github" "gho_renewed" "gh-42" "carol@example.com" (Some 9000) None)
         office_world)
  = Return (set_oauth_accounts
              [mkOAuthAccount "github" "gho_renewed" "gh-42" "carol@example.com"
                              (Some 9000) None] carol).
Proof.
  assert (Hrepo : oauth2_repository (demo_service true) <> None) by discriminate.
  exact (f_equal fst (proj1 (oauth2_callback_refreshes_existing_account
           (demo_service true) "github" "gh-42" "carol@example.com" false false
           state_without_subject "state-secret"
           (mkOAuthAccount "github" "gho_renewed" "gh-42" "carol@example.com" (Some 9000) None)
           office_world [("aud", STATE_TOKEN_AUDIENCE)] carol Hrepo eq_refl eq_refl
           eq_refl))).
Defined.

Lemma oauth2_callback_unknown_email_witness :
  fst (_oauth2_callback (demo_service true) "github" "gh-77" "dave@example.com" true true
         state_without_subject "state-secret" dave_account demo_world)
  = Return (mkUser (IdInt 2) "dave@example.com" "new$generated" true true []
                   [dave_account] []) /\
  _oauth2_callback (demo_service true) "github" "gh-77" "dave@example.com" false true
    state_without_subject "state-secret" dave_account demo_world
  = (Raise (HTTPException HTTP_400_BAD_REQUEST "User already exists."), demo_world).
Proof.
  assert (Hrepo : oauth2_repository (demo_service true) <> None) by discriminate.
  assert (Hnew : forall u, In u (users demo_world) ->
                   filter (same_account "github" "gh-77") (oauth_accounts u) = []).
  { intros u [<-|[]]. reflexivity. }
  assert (Hfresh : forall u, In u (users demo_world) ->
                     id u <> pk_source demo_world (next_pk demo_world)).
  { intros u [<-|[]]. discriminate. }
  pose proof (oauth2_callback_unknown_email (demo_service true) "github" "gh-77"
                "dave@example.com" true state_without_subject "state-secret" dave_account
                demo_world [("aud", STATE_TOKEN_AUDIENCE)] Hrepo eq_refl Hnew eq_refl
                (fun _ => eq_refl) Hfresh) as [_ Hrefused].
  split; [reflexivity | exact Hrefused].
Defined.

Lemma oauth2_callback_case_variant_email_duplicates_witness :
  exists user' w',
    _oauth2_callback (demo_service true) "github" "gh-78" "ALICE@example.com" true false
      state_without_subject "state-secret" alice_variant_account demo_world
    = (Return user', w') /\
    id user' <> id alice /\
    In alice (users w') /\ In user' (users w') /\
    (2 <= length (reset_candidates "ALICE@example.com" w'))%nat.
Proof.
  assert (Hrepo : oauth2_repository (demo_service true) <> None) by discriminate.
  apply (oauth2_callback_case_variant_email_duplicates (py := basic_builtins)
           (demo_service true) "github" "gh-78"
           "ALICE@example.com" false state_without_subject "state-secret"
           alice_variant_account demo_world [("aud", STATE_TOKEN_AUDIENCE)] alice Hrepo
           eq_refl).
  - intros u [<-|[]]. reflexivity.
  - now left.
  - reflexivity.
  - reflexivity.
  - intro u. reflexivity.
  - intros u [<-|[]]. discriminate.
Defined.


Lemma update_user_hashes_password_witness :
  fst (update_user (demo_service true) bob_new_password office_world)
  = Return (set_password_hash "new$pw9" bob).
Proof.
  pose proof (proj1 (update_user_hashes_password (demo_service true) bob_new_password
                       office_world bob eq_refl) "pw9" eq_refl) as H.
  assert (Hne : "pw9" <> "") by discriminate.
  exact (f_equal fst (proj1 (H Hne))).
Defined.

Lemma delete_user_voids_tokens_witness :
  exists w',
    delete_user (IdInt 2) office_world = (Return bob, w') /\
    (forall x, In x (users w') <-> In x (users office_world) /\ id x <> IdInt 2) /\
    fst (get_user (IdInt 2) w') = Raise NotFoundError /\
    fst (verify (demo_service true)
                (issued_token (demo_service true) (IdInt 2) "verify" 1000) w')
    = Raise InvalidTokenException /\
    fst (reset_password (demo_service true)
           (issued_token (demo_service true) (IdInt 2) "reset_password" 1000) "pw" w')
    = Raise InvalidTokenException.
Proof.
  assert (Hlive : now office_world < now office_world + 60 * 60 * 24)
    by (vm_compute; reflexivity).
  exact (delete_user_voids_tokens (py := basic_builtins)
           (demo_service true) (IdInt 2) office_world office_world
           bob "pw" _ _ eq_refl eq_refl small_int_id_round_trips_2 Hlive eq_refl).
Defined.

Lemma oauth2_callback_requires_email_witness :
  oauth2_callback (demo_service true) demo_url_for (callback_params state_without_subject)
    mute_provider "state-secret" "oauth2:mute.callback" None true true false None
    demo_world
  = (Raise (HTTPException HTTP_400_BAD_REQUEST "OAuth account without email"), demo_world).
Proof.
  apply (oauth2_callback_requires_email (demo_service true) demo_url_for
           (callback_params state_without_subject) mute_provider "state-secret"
           "oauth2:mute.callback" None true true false None demo_world
           "c0de%2Fx" "c0de/x" "m-1" (mkOAuth2Token (Some "c0de/x") None None)).
  - discriminate.
  - reflexivity.
  - reflexivity.
  - reflexivity.
  - reflexivity.
Defined.

Lemma associate_routes_round_trip_witness :
  exists state,
    fst (fst (oauth2_associate_callback_route JWTAuth (demo_service true) demo_url_for
                github "state-secret" None false false bob
                (mkCallbackData (Some "c0de%2Fx") None (Some state) None) [] office_world))
    = Return (LoginResponse "2" (set_oauth_accounts [carol_renewed] bob)).
Proof.
  assert (Hrepo : oauth2_repository (demo_service true) <> None) by discriminate.
  assert (Hlive : now office_world < now office_world + 3600) by (vm_compute; reflexivity).
  destruct (associate_routes_round_trip JWTAuth (demo_service true) demo_url_for github
              "state-secret" None false false bob None office_world office_world []
              "c0de%2Fx" "gho_c0de/x" "gh-42" "carol@example.com"
              (mkOAuth2Token (Some "gho_c0de/x") (Some 9000) None)
              Hrepo Hlive eq_refl eq_refl (fun _ => eq_refl) eq_refl eq_refl)
    as (state & _ & H).
  exists state. rewrite (H None None). reflexivity.
Defined.

Lemma session_login_admits_unverified_witness :
  fst (login_jwt JWTAuth (demo_service true) bob_login office_world)
  = Raise (PermissionDeniedException "not verified") /\
  fst (login_session SessionAuth (demo_service true) bob_login [] office_world)
  = (Return bob, [("user_id", IdInt 2)]).
Proof.
  pose proof (session_login_admits_unverified (py := basic_builtins)
                (demo_service true) bob_login office_world
                [] bob eq_refl eq_refl) as [Hj [Hs _]].
  split; [exact (f_equal fst Hj) | exact (f_equal fst Hs)].
Defined.

Lemma role_change_failure_is_atomic_witness :
  snd (assign_role (demo_service true) (IdInt 1) (IdInt 8) demo_world) = demo_world /\
  snd (revoke_role (demo_service true) (IdInt 1) (IdInt 7) demo_world) = demo_world.
Proof.
  split.
  - exact (proj1 (proj1 (role_change_failure_is_atomic (demo_service true) (IdInt 1)
                           (IdInt 8) demo_world NotFoundError) eq_refl)).
  - exact (proj1 (proj2 (role_change_failure_is_atomic (demo_service true) (IdInt 1)
                           (IdInt 7) demo_world
                           (IntegrityError "user does not have role 'admin'")) eq_refl)).
Defined.

Lemma login_jwt_requires_verified_witness :
  fst (login_jwt JWTAuth (demo_service true) nobody_login office_world)
  = Raise NotAuthorizedException.
Proof.
  apply (proj1 (proj2 (login_jwt_requires_verified (py := basic_builtins)
                         JWTAuth (demo_service true)
                         nobody_login office_world))).
  - reflexivity.
  - discriminate.
Defined.

Lemma failed_logins_are_indistinguishable_witness :
  authenticate (demo_service true) nobody_login office_world
  = authenticate (demo_service true) bob_wrong_password office_world.
Proof.
  destruct (failed_logins_are_indistinguishable (py := basic_builtins)
              (demo_service true) nobody_login
              bob_wrong_password office_world bob true true
              eq_refl eq_refl eq_refl eq_refl eq_refl) as [H1 H2].
  now rewrite H1, H2.
Defined.

Lemma unverified_until_verify_witness :
  exists user token w1 w2 w3 w4,
    register (demo_service true) bob_signup demo_world = (Return user, w1) /\
    outbox w1 = (outbox demo_world ++ [VerificationToken (id user) token])%list /\
    login_jwt JWTAuth (demo_service true) bob_signup_login w1
    = (Raise (PermissionDeniedException "not verified"), w2) /\
    verify (demo_service true) token w2 = (Return (set_is_verified true user), w3) /\
    login_jwt JWTAuth (demo_service true) bob_signup_login w3
    = (Return (LoginResponse (str (id user)) (set_is_verified true user)), w4).
Proof.
  apply (unverified_until_verify (py := basic_builtins)
           (demo_service true) bob_signup bob_signup_login
           demo_world "bob@example.com" eq_refl eq_refl (fun _ => eq_refl)
           (fun _ => eq_refl) eq_refl (fun _ => eq_refl)).
  - intros salt salt'. reflexivity.
  - reflexivity.
  - reflexivity.
  - reflexivity.
  - intros u [<-|[]]. reflexivity.
  - intros u [<-|[]]. discriminate.
  - exact small_int_id_round_trips_2.
Defined.

Lemma oauth_routes_inactive_user_witness :
  oauth2_callback_route JWTAuth (demo_service true) demo_url_for github "state-secret"
    None false false (callback_params state_without_subject) [] office_world
  = (Raise (HTTPException HTTP_400_BAD_REQUEST "User is not active."), [],
     with_users [alice; bob; set_oauth_accounts [carol_renewed] carol] office_world).
Proof.
  assert (Hrepo : oauth2_repository (demo_service true) <> None) by discriminate.
  exact (proj1 (oauth_routes_inactive_user JWTAuth (demo_service true) demo_url_for github
                  "state-secret" None false false (callback_params state_without_subject)
                  [] office_world "c0de%2Fx" "gho_c0de/x" "gh-42" "carol@example.com"
                  (mkOAuth2Token (Some "gho_c0de/x") (Some 9000) None)
                  [("aud", STATE_TOKEN_AUDIENCE)] carol
                  Hrepo eq_refl eq_refl eq_refl eq_refl eq_refl eq_refl eq_refl eq_refl)).
Defined.

Lemma unparseable_subject_raises_value_error_witness :
  verify (demo_service true) odd_subject_token demo_world = (Raise ValueError, demo_world) /\
  reset_password (demo_service true) odd_subject_reset_token "pw" demo_world
  = (Raise ValueError, demo_world).
Proof.
  exact (unparseable_subject_raises_value_error (py := basic_builtins)
           (demo_service true) odd_subject_token
           odd_subject_reset_token "pw" demo_world
           (mkToken 5000 "not-an-id" (Some "verify"))
           (mkToken 5000 "not-an-id" (Some "reset_password"))
           eq_refl eq_refl eq_refl eq_refl eq_refl eq_refl).
Defined.

(** ** Where two users share an e-mail up to casing *)

(** C2, counterexample.  In [twin_world] two users match Alice's
    identifier.  Her password verifies against her stored hash and the
    pre-login hook returns true, yet [authenticate] returns neither the
    user nor the failure value: the lookup raises [MultipleResultsFound]. *)
Lemma authenticate_twin_identifier_raises :
  pre_login_hook (demo_service true) alice_login = Return true /\
  In alice (candidates (demo_service true) alice_login twin_world) /\
  fst (password_check (demo_service true) alice_login twin_world alice) = true /\
  fst (authenticate (demo_service true) alice_login twin_world)
  = Raise MultipleResultsFound /\
  ~ (exists r : option User,
        fst (authenticate (demo_service true) alice_login twin_world) = Return r).
Proof.
  assert (Hraise : fst (authenticate (demo_service true) alice_login twin_world)
                   = Raise MultipleResultsFound) by (vm_compute; reflexivity).
  split; [reflexivity|]. split; [vm_compute; now left|].
  split; [vm_compute; reflexivity|]. split; [exact Hraise|].
  intros [r Hr]. rewrite Hraise in Hr. discriminate.
Qed.

(** C7, counterexample.  In [twin_world] a password reset for an e-mail
    that no user carries returns silently, while one for Alice's e-mail
    raises [MultipleResultsFound]: the two results differ, and the caller
    learns that the e-mail is known. *)
Lemma initiate_password_reset_twin_email_reveals :
  reset_candidates "nobody@example.com" twin_world = [] /\
  fst (initiate_password_reset (demo_service true) "nobody@example.com" twin_world)
  = Return tt /\
  In alice (reset_candidates "alice@example.com" twin_world) /\
  fst (initiate_password_reset (demo_service true) "alice@example.com" twin_world)
  = Raise MultipleResultsFound /\
  fst (initiate_password_reset (demo_service true) "nobody@example.com" twin_world)
  <> fst (initiate_password_reset (demo_service true) "alice@example.com" twin_world).
Proof.
  assert (Hnobody : fst (initiate_password_reset (demo_service true) "nobody@example.com"
                           twin_world) = Return tt) by (vm_compute; reflexivity).
  assert (Halice : fst (initiate_password_reset (demo_service true) "alice@example.com"
                          twin_world) = Raise MultipleResultsFound)
    by (vm_compute; reflexivity).
  split; [vm_compute; reflexivity|]. split; [exact Hnobody|].
  split; [vm_compute; now left|]. split; [exact Halice|].
  rewrite Hnobody, Halice. discriminate.
Qed.
